(** * sanic_restplus.api: content negotiation and the error router

    A shallow embedding of [src/sanic_restplus/api.py] (class [Api] and class
    [ApiErrorHandler]) and the properties of its negotiation / error-response
    pipeline.

    Conventions of the embedding:
    - a Python call that may raise is a function into [result]; the exception
      object is a [PyError] record holding the attributes the module reads;
    - dicts used as maps are [gmap]s, the endpoint set is a [gset], the
      representation registry (an [OrderedDict]) is an association list;
    - names are those of the source wherever Rocq accepts them. *)

From Stdlib Require Import Ascii.
From stdpp Require Import base strings gmap list pretty sorting.

Local Open Scope string_scope.
Local Open Scope Z_scope.

(** ** Python values, headers, responses *)

(** Scalars stored in a JSON body. *)
Inductive pyval :=
  | PNone
  | PStr (s : string)
  | PInt (z : Z).

(** The [data] handed to a representation: a dict, or any other object. *)
Inductive pydata :=
  | PyDict (d : gmap string pyval)
  | PyOther (v : pyval).

(** What a renderer did with [data]: [output_json] dumps it, sanic's [text]
    renders [str(data)]; a user representation may emit anything. *)
Inductive pybody :=
  | JsonBody (d : pydata)
  | TextBody (d : pydata)
  | RawBody (s : string).

(** sanic's [HTTPResponse], reduced to the attributes the module touches. *)
Record HTTPResponse := mkResponse {
  status : Z;
  headers : gmap string string;
  body : pybody;
}.

(** [resp.headers[k] = v] *)
Definition set_header (k v : string) (resp : HTTPResponse) : HTTPResponse :=
  {| status := status resp; headers := <[k := v]> (headers resp); body := body resp |}.

(** ** Exceptions *)

(** A raised exception object: its exact class, the classes it is an instance
    of, and the attributes that [api.py] reads through [getattr]. *)
Record PyError := mkError {
  exc_class : string;                      (* e.__class__ *)
  exc_mro : list string;                   (* classes C with isinstance(e, C) *)
  exc_str : string;                        (* str(e) *)
  exc_status_code : option Z;              (* e.status_code, when set *)
  exc_message : option pyval;              (* e.message, when set *)
  exc_data : option pydata;                (* e.data, when set *)
  exc_valid_methods : option (list string) (* e.valid_methods, when set *)
}.

Definition isinstance (e : PyError) (cls : string) : bool :=
  bool_decide (cls ∈ exc_mro e).

Inductive result (A : Type) :=
  | Ok (a : A)
  | Raise (e : PyError).
Arguments Ok {A} a.
Arguments Raise {A} e.

Global Instance result_ret : MRet result := λ A a, Ok a.
Global Instance result_bind : MBind result := λ A B k m,
  match m with
  | Ok a => k a
  | Raise e => Raise e
  end.

(** Built-in exceptions raised by the interpreter on the paths modelled. *)
Definition builtin_error (cls msg : string) : PyError :=
  {| exc_class := cls; exc_mro := [cls; "Exception"]; exc_str := msg;
     exc_status_code := None; exc_message := None; exc_data := None;
     exc_valid_methods := None |}.

Definition AttributeError := builtin_error "AttributeError".
Definition NameError := builtin_error "NameError".
Definition StopIteration := builtin_error "StopIteration" "".
Definition NotImplementedError := builtin_error "NotImplementedError".
Definition UnboundLocalError :=
  {| exc_class := "UnboundLocalError";
     exc_mro := ["UnboundLocalError"; "NameError"; "Exception"];
     exc_str := "local variable 'e' referenced before assignment";
     exc_status_code := None; exc_message := None; exc_data := None;
     exc_valid_methods := None |}.

(** [sanic.exceptions]: [SanicException(message, status_code)] and the
    subclasses the module raises. *)
Definition SanicException (message : string) (status_code : option Z) : PyError :=
  {| exc_class := "SanicException"; exc_mro := ["SanicException"; "Exception"];
     exc_str := message; exc_status_code := status_code;
     exc_message := None; exc_data := None; exc_valid_methods := None |}.

Definition ServerError (message : string) : PyError :=
  {| exc_class := "ServerError";
     exc_mro := ["ServerError"; "SanicException"; "Exception"];
     exc_str := message; exc_status_code := Some 500;
     exc_message := None; exc_data := None; exc_valid_methods := None |}.

Definition NotFound (message : string) : PyError :=
  {| exc_class := "NotFound";
     exc_mro := ["NotFound"; "SanicException"; "Exception"];
     exc_str := message; exc_status_code := Some 404;
     exc_message := None; exc_data := None; exc_valid_methods := None |}.

(** [InvalidUsage(msg, status_code=405)] with [valid_methods] assigned on it. *)
Definition InvalidUsage (message : string) (valid_methods : option (list string)) : PyError :=
  {| exc_class := "InvalidUsage";
     exc_mro := ["InvalidUsage"; "SanicException"; "Exception"];
     exc_str := message; exc_status_code := Some 405;
     exc_message := None; exc_data := None; exc_valid_methods := valid_methods |}.

(** [sanic.response.COMMON_STATUS_CODES] and [ALL_STATUS_CODES] (reason
    phrases, already decoded from bytes). *)
Definition COMMON_STATUS_CODES : gmap Z string :=
  list_to_map [(200, "OK"); (400, "Bad Request"); (404, "Not Found");
               (500, "Internal Server Error")].

Definition ALL_STATUS_CODES : gmap Z string :=
  list_to_map
    [(100, "Continue"); (101, "Switching Protocols"); (102, "Processing");
     (200, "OK"); (201, "Created"); (202, "Accepted");
     (203, "Non-Authoritative Information"); (204, "No Content");
     (205, "Reset Content"); (206, "Partial Content"); (207, "Multi-Status");
     (208, "Already Reported"); (226, "IM Used");
     (300, "Multiple Choices"); (301, "Moved Permanently"); (302, "Found");
     (303, "See Other"); (304, "Not Modified"); (305, "Use Proxy");
     (307, "Temporary Redirect"); (308, "Permanent Redirect");
     (400, "Bad Request"); (401, "Unauthorized"); (402, "Payment Required");
     (403, "Forbidden"); (404, "Not Found"); (405, "Method Not Allowed");
     (406, "Not Acceptable"); (407, "Proxy Authentication Required");
     (408, "Request Timeout"); (409, "Conflict"); (410, "Gone");
     (411, "Length Required"); (412, "Precondition Failed");
     (413, "Request Entity Too Large"); (414, "Request-URI Too Long");
     (415, "Unsupported Media Type"); (416, "Requested Range Not Satisfiable");
     (417, "Expectation Failed"); (418, "I'm a teapot");
     (422, "Unprocessable Entity"); (423, "Locked");
     (424, "Failed Dependency"); (426, "Upgrade Required");
     (428, "Precondition Required"); (429, "Too Many Requests");
     (431, "Request Header Fields Too Large");
     (451, "Unavailable For Legal Reasons");
     (500, "Internal Server Error"); (501, "Not Implemented");
     (502, "Bad Gateway"); (503, "Service Unavailable");
     (504, "Gateway Timeout"); (505, "HTTP Version Not Supported");
     (506, "Variant Also Negotiates"); (507, "Insufficient Storage");
     (508, "Loop Detected"); (510, "Not Extended");
     (511, "Network Authentication Required")].

(** ** The host framework: routes, router, application, request *)

(** sanic's [Route] namedtuple. [pattern r url] is
    [r.pattern.match(url) is not None]; [methods] lists the route's method set
    in its iteration order. The type covers the routes that carry a method
    set: a route whose [methods] is [None] is not represented, and so neither
    is the [TypeError] that [method in route.methods] raises for it. *)
Record Route := mkRoute {
  handler : option string;
  methods : list string;
  pattern : string → bool;
  name : string;
}.

Record Router := mkRouter {
  routes_static : gmap string Route;
  routes_dynamic : gmap nat (list Route);   (* a defaultdict(list) *)
  routes_always_check : list Route;
}.

Record Sanic := mkSanic {
  router : Router;
  config : gmap string bool;
}.

(** The request: [accept_mimetypes] is what [get_accept_mimetypes(request)]
    yields, the (media type, quality) pairs of the Accept header in header
    order, the quality in thousandths. *)
Record Request := mkRequest {
  path : string;
  method : string;
  accept_mimetypes : list (string * N);
  app : option Sanic;
}.

(** [sanic.router.url_hash]: [url.count('/')]. *)
Fixpoint url_hash (url : string) : nat :=
  match url with
  | EmptyString => 0%nat
  | String c rest =>
      if decide (c = "/"%char) then S (url_hash rest) else url_hash rest
  end.

(** ** Ordered dictionaries (the representation registry) *)

Section odict.
Context {V : Type}.

(** [k in d] / [d[k]] *)
Fixpoint odict_get (k : string) (d : list (string * V)) : option V :=
  match d with
  | [] => None
  | (k', v) :: d' => if decide (k' = k) then Some v else odict_get k d'
  end.

(** [d[k] = v]: an existing key keeps its position, a new key goes last. *)
Fixpoint odict_set (k : string) (v : V) (d : list (string * V)) : list (string * V) :=
  match d with
  | [] => [(k, v)]
  | (k', v') :: d' =>
      if decide (k' = k) then (k, v) :: d' else (k', v') :: odict_set k v d'
  end.

(** [list(d.keys())] *)
Definition odict_keys (d : list (string * V)) : list string := d.*1.

End odict.

(** ** Representations *)

(** A representation transformer: [f(request, data, code, headers)]. *)
Abbreviation renderer :=
  (Request → pydata → Z → gmap string string → HTTPResponse) (only parsing).

(** Modelled from the spec: [representations.output_json] is not among the
    sources; per §3 it is the render function
    [(request, data, status, headers) → Response] seeded for
    [application/json], producing the JSON encoding of [data] with the status
    and headers it is given. *)
Definition output_json : renderer :=
  λ _ data code headers,
    {| status := code; headers := headers; body := JsonBody data |}.

(** [sanic.response.text(str(data), status, headers)]. *)
Definition text : renderer :=
  λ _ data code headers,
    {| status := code; headers := headers; body := TextBody data |}.

Definition DEFAULT_REPRESENTATIONS : list (string * renderer) :=
  [("application/json", output_json)].

(** List headers that should never be handled by the library. *)
Definition HEADERS_BLACKLIST : list string := ["Content-Length"].

(** ** Return values of resources and handlers *)

(** The shapes a resource or an error handler may return: [body],
    [(body, code)], [(body, code, headers)]. *)
Inductive raw_return (B : Type) :=
  | Ret1 (data : B)
  | Ret2 (data : B) (code : Z)
  | Ret3 (data : B) (code : Z) (hdrs : gmap string string).
Arguments Ret1 {B} data.
Arguments Ret2 {B} data code.
Arguments Ret3 {B} data code hdrs.

(** Modelled from the spec: [utils.unpack] is not among the sources; per §3 a
    raw return value is [(body)], [(body, status)] or [(body, status, headers)],
    a missing status defaults to [default_code] (200 unless the caller says
    otherwise, as [handle_error] does with 500), missing headers to empty. *)
Definition unpack {B} (response : raw_return B) (default_code : Z)
    : B * Z * gmap string string :=
  match response with
  | Ret1 data => (data, default_code, ∅)
  | Ret2 data code => (data, code, ∅)
  | Ret3 data code hdrs => (data, code, hdrs)
  end.

(** An error handler registered with [errorhandler]: it maps the exception to
    a raw return value whose body is a dict, or raises. *)
Abbreviation error_handler :=
  (PyError → result (raw_return (gmap string pyval))) (only parsing).

(** ** The Api object *)

Record Namespace := mkNamespace {
  ns_id : nat;          (* object identity *)
  ns_name : string;
}.

(** A resource class; [resource_dash_name] is [camel_to_dash(resource.__name__)]. *)
Record Resource := mkResource {
  resource_dash_name : string;
}.

Record Api := mkApi {
  _uid : nat;
  _add_specs : bool;
  _default_error_handler : option error_handler;
  error_handlers : gmap string error_handler;      (* keyed by exception class *)
  default_namespace : Namespace;
  representations : list (string * renderer);
  default_mediatype : option string;
  catch_all_404s : bool;
  serve_challenge_on_401 : bool;
  endpoints : gset string;
  resources : list (Resource * list string * string);
  api_app : bool;                                   (* self.app is not None *)
  blueprint : option string;                        (* self.blueprint.name *)
}.

(** ** Python string helpers *)

(** [s.startswith(p)] *)
Fixpoint startswith (s p : string) : bool :=
  match p, s with
  | EmptyString, _ => true
  | String _ _, EmptyString => false
  | String c p', String d s' => if decide (c = d) then startswith s' p' else false
  end.

Fixpoint string_drop (n : nat) (s : string) : string :=
  match n, s with
  | O, _ => s
  | S _, EmptyString => EmptyString
  | S n', String _ s' => string_drop n' s'
  end.

(** The text after the first occurrence of [sep] in [s], if any. *)
Fixpoint after_first (sep s : string) : option string :=
  if startswith s sep then Some (string_drop (String.length sep) s)
  else match s with
       | EmptyString => None
       | String _ s' => after_first sep s'
       end.

(** [s.split(sep, 1)[-1]] for a non-empty [sep]. *)
Definition split1_last (s sep : string) : string :=
  default s (after_first sep s).

(** The text before and after the first ["/"] of a media type. *)
Fixpoint split_slash (s : string) : string * option string :=
  match s with
  | EmptyString => (EmptyString, None)
  | String c s' =>
      if decide (c = "/"%char) then (EmptyString, Some s')
      else let '(t, sub) := split_slash s' in (String c t, sub)
  end.

(** Python's [a or b] on optional strings: [None] and [''] are falsy. *)
Definition py_or (a b : option string) : option string :=
  match a with
  | Some s => if decide (s = "") then b else Some s
  | None => b
  end.

(** ** Content negotiation *)

(** [sorted(pairs, key=operator.itemgetter(1), reverse=True)]: a stable sort
    by descending quality. *)
Fixpoint insert_by_quality (x : string * N) (l : list (string * N)) : list (string * N) :=
  match l with
  | [] => [x]
  | y :: l' => if (x.2 <? y.2)%N then y :: insert_by_quality x l' else x :: y :: l'
  end.

Definition sorted_by_quality (l : list (string * N)) : list (string * N) :=
  foldr insert_by_quality [] l.

(** [Api.mediatypes]: the requested media types of the Accept header, best
    quality first. *)
Definition mediatypes (request : Request) : list string :=
  (sorted_by_quality (accept_mimetypes request)).*1.

(** Modelled from the spec: the matching test of [utils.best_match_accept_mimetype]
    is not among the sources; per §4.1 step 3 a client preference matches a
    registered (concrete) type when it is that type, or the wildcard of its
    type ([application/*]), or the full wildcard ([*/*]). *)
Definition mimetype_matches (pref key : string) : bool :=
  match split_slash pref with
  | (t, Some "*") =>
      bool_decide (t = "*") || bool_decide (t = (split_slash key).1)
  | _ => bool_decide (pref = key)
  end.

(** The first registry key that matches the best client preference matched by
    any key: the preferences are tried in order, the keys in insertion order. *)
Fixpoint first_match (prefs keys : list string) : option string :=
  match prefs with
  | [] => None
  | pref :: prefs' =>
      match List.find (mimetype_matches pref) keys with
      | Some key => Some key
      | None => first_match prefs' keys
      end
  end.

(** Modelled from the spec: the parsing of the Accept header is not among
    the sources; per §4.1 steps 1 and 2 the media types the request accepts
    are those of its Accept header by descending quality, and a request
    without that header accepts everything. *)
Definition accepted_mediatypes (request : Request) : list string :=
  match mediatypes request with
  | [] => ["*/*"]
  | prefs => prefs
  end.

(** Modelled from the spec: [utils.best_match_accept_mimetype] is not among
    the sources; per §4.1 steps 3 to 5 the first registry key (in insertion
    order) matching the best accepted media type that matches any key wins.
    When no accepted media type matches anything registered, the answer is
    [default] if that is itself registered or is [text/plain]; otherwise the
    negotiation fails, which the helper signals by [None] and
    [make_response], below, turns into 406. *)
Definition best_match_accept_mimetype {V} (request : Request)
    (representations : list (string * V)) (default : option string) : option string :=
  match first_match (accepted_mediatypes request) (odict_keys representations) with
  | Some key => Some key
  | None =>
      match default with
      | Some mediatype =>
          if decide (mediatype ∈ odict_keys representations ∨ mediatype = "text/plain")
          then Some mediatype
          else None
      | None => None
      end
  end.

(** [Api.make_response]: looks up the representation transformer for the
    requested media type and invokes it; [fallback_mediatype] is the keyword
    argument popped from [kwargs]. *)
Definition make_response (self : Api) (request : Request) (data : pydata)
    (code : Z) (hdrs : gmap string string) (fallback_mediatype : option string)
    : result HTTPResponse :=
  let default_mediatype := py_or fallback_mediatype (default_mediatype self) in
  let mediatype :=
    best_match_accept_mimetype request (representations self) default_mediatype in
  match mediatype with
  | None => Raise (SanicException "Not Acceptable" (Some 406))
  | Some mediatype =>
      match odict_get mediatype (representations self) with
      | Some represent =>
          let resp := represent request data code hdrs in
          Ok (set_header "Content-Type" mediatype resp)
      | None =>
          if decide (mediatype = "text/plain") then
            let resp := text request data code hdrs in
            Ok (set_header "Content-Type" "text/plain" resp)
          else Raise (ServerError "None")
      end
  end.

(** What a resource view hands back: a ready response, or a raw value. *)
Inductive view_return :=
  | ViewResponse (resp : HTTPResponse)
  | ViewRaw (r : raw_return pydata).

(** [Api.output]: the wrapper around a resource view. [resource] is the view
    with its coroutine already awaited; an exception of the view propagates. *)
Definition output (self : Api) (resource : Request → result view_return)
    (request : Request) : result HTTPResponse :=
  resp ← resource request;
  match resp with
  | ViewResponse resp => Ok resp
  | ViewRaw resp =>
      let '(data, code, hdrs) := unpack resp 200 in
      make_response self request data code hdrs None
  end.

(** [Api.representation(mediatype)(func)] *)
Definition representation (self : Api) (mediatype : string) (func : renderer) : Api :=
  {| _uid := _uid self; _add_specs := _add_specs self;
     _default_error_handler := _default_error_handler self;
     error_handlers := error_handlers self;
     default_namespace := default_namespace self;
     representations := odict_set mediatype func (representations self);
     default_mediatype := default_mediatype self;
     catch_all_404s := catch_all_404s self;
     serve_challenge_on_401 := serve_challenge_on_401 self;
     endpoints := endpoints self; resources := resources self;
     api_app := api_app self; blueprint := blueprint self |}.

(** ** Construction and endpoint registration *)

Definition mask_parse_error_handler : error_handler :=
  λ error, Ok (Ret2 {[ "message" := PStr ("Mask parse error: " +:+ exc_str error) ]} 400).

Definition mask_error_handler : error_handler :=
  λ error, Ok (Ret2 {[ "message" := PStr ("Mask error: " +:+ exc_str error) ]} 400).

(** [Api.__init__] without an [app]. [uid_counter] is the class attribute
    [Api.uid_counter], shared by every instance of the process: the
    constructor increments it and returns its new value with the instance.
    [ns_ident] is the identity of the freshly made default namespace. *)
Definition Api__init__ (uid_counter : nat) (ns_ident : nat)
    (default_mediatype : option string) (catch_all_404s : bool)
    (serve_challenge_on_401 : bool) : Api * nat :=
  let uid := S uid_counter in
  ({| _uid := uid; _add_specs := true;
      _default_error_handler := None;
      error_handlers := {[ "ParseError" := mask_parse_error_handler;
                           "MaskError" := mask_error_handler ]};
      default_namespace := {| ns_id := ns_ident; ns_name := "default" |};
      representations := DEFAULT_REPRESENTATIONS;
      default_mediatype := default_mediatype;
      catch_all_404s := catch_all_404s;
      serve_challenge_on_401 := serve_challenge_on_401;
      endpoints := ∅; resources := [];
      api_app := false; blueprint := None |}, uid).

(** The Api with [self.endpoints], [self.resources] and [self.app] updated. *)
Definition set_endpoints (self : Api) (eps : gset string)
    (res : list (Resource * list string * string)) (has_app : bool) : Api :=
  {| _uid := _uid self; _add_specs := _add_specs self;
     _default_error_handler := _default_error_handler self;
     error_handlers := error_handlers self;
     default_namespace := default_namespace self;
     representations := representations self;
     default_mediatype := default_mediatype self;
     catch_all_404s := catch_all_404s self;
     serve_challenge_on_401 := serve_challenge_on_401 self;
     endpoints := eps; resources := res;
     api_app := has_app; blueprint := blueprint self |}.

(** [Api._register_specs]: the schema view is named ['specs' + str(uid)]. *)
Definition _register_specs (self : Api) : Api :=
  if _add_specs self then
    let endpoint := "specs" +:+ pretty (_uid self) in
    set_endpoints self ({[ endpoint ]} ∪ endpoints self) (resources self) (api_app self)
  else self.

(** [Api.init_app] on a plain application: [self.app] is set and [_init_app]
    registers the schema view; the views it adds to the host's router do not
    touch the Api object. *)
Definition init_app (self : Api) : Api :=
  _register_specs (set_endpoints self (endpoints self) (resources self) true).

(** The [while True] loop of [default_endpoint], with the number of rounds it
    may still take. *)
Fixpoint default_endpoint_loop (fuel : nat) (eps : gset string) (base : string)
    (suffix : nat) : option string :=
  match fuel with
  | O => None
  | S fuel' =>
      let new_endpoint := base +:+ "_" +:+ pretty suffix in
      if decide (new_endpoint ∈ eps) then
        default_endpoint_loop fuel' eps base (S suffix)
      else Some new_endpoint
  end.

(** [Api.default_endpoint]: a default endpoint for a resource on a namespace,
    not colliding with the endpoints of this Api. One more round than there
    are endpoints always suffices ([default_endpoint_returns]). *)
Definition default_endpoint (self : Api) (resource : Resource)
    (namespace : Namespace) : option string :=
  let endpoint := resource_dash_name resource in
  let endpoint :=
    if decide (ns_id namespace ≠ ns_id (default_namespace self))
    then ns_name namespace +:+ "_" +:+ endpoint else endpoint in
  if decide (endpoint ∈ endpoints self) then
    default_endpoint_loop (S (size (endpoints self))) (endpoints self) endpoint 2
  else Some endpoint.

(** [Api.register_resource]: returns the Api with the endpoint added and the
    endpoint name. On an Api without application the resource is queued in
    [self.resources]. On a bound Api the source calls [_register_view], which
    acts on the host application only and may raise there (an endpoint that
    [app.view_functions] binds to another class, a route the host refuses);
    the host is not part of this state, so for a bound Api the result is the
    Api once that call has returned. *)
Definition register_resource (self : Api) (namespace : Namespace)
    (resource : Resource) (urls : list string) (endpoint : option string)
    : option (Api * string) :=
  endpoint ← match py_or endpoint None with
             | Some ep => Some ep
             | None => default_endpoint self resource namespace
             end;
  let eps := {[ endpoint ]} ∪ endpoints self in
  if api_app self then
    Some (set_endpoints self eps (resources self) (api_app self), endpoint)
  else
    Some (set_endpoints self eps (resources self ++ [(resource, urls, endpoint)])
            (api_app self), endpoint).

(** [Api.owns_endpoint]: tests if an endpoint name belongs to this Api, taking
    the blueprint name part of the endpoint name into account. *)
Definition owns_endpoint (self : Api) (endpoint : string) : bool :=
  match blueprint self with
  | Some bp_name =>
      if startswith endpoint bp_name then
        bool_decide (split1_last endpoint (bp_name +:+ ".") ∈ endpoints self)
      else false
  | None => bool_decide (endpoint ∈ endpoints self)
  end.

(** [Api.errorhandler(exception)(func)] for an exception class. *)
Definition errorhandler (self : Api) (exception : string) (func : error_handler) : Api :=
  {| _uid := _uid self; _add_specs := _add_specs self;
     _default_error_handler := _default_error_handler self;
     error_handlers := <[ exception := func ]> (error_handlers self);
     default_namespace := default_namespace self;
     representations := representations self;
     default_mediatype := default_mediatype self;
     catch_all_404s := catch_all_404s self;
     serve_challenge_on_401 := serve_challenge_on_401 self;
     endpoints := endpoints self; resources := resources self;
     api_app := api_app self; blueprint := blueprint self |}.

(** [Api.errorhandler(func)] used bare: registers the default handler. *)
Definition errorhandler_default (self : Api) (func : error_handler) : Api :=
  {| _uid := _uid self; _add_specs := _add_specs self;
     _default_error_handler := Some func;
     error_handlers := error_handlers self;
     default_namespace := default_namespace self;
     representations := representations self;
     default_mediatype := default_mediatype self;
     catch_all_404s := catch_all_404s self;
     serve_challenge_on_401 := serve_challenge_on_401 self;
     endpoints := endpoints self; resources := resources self;
     api_app := api_app self; blueprint := blueprint self |}.

(** [Api.endpoint]: the name an endpoint of this Api has in the application. *)
Definition Api_endpoint (self : Api) (name : string) : string :=
  match blueprint self with
  | Some bp_name => bp_name +:+ "." +:+ name
  | None => name
  end.

(** ** Probing the host router *)

(** One [for route in routes: ... break] loop of [_dummy_router_get]. The
    state is the loop variable [route] (which outlives the loop) and
    [route_found]; [inl r] is a [break] at [r], [inr] the state when the loop
    runs to its [else]. *)
Fixpoint scan_routes (method url : string) (routes : list Route)
    (route : option Route) (route_found : bool)
    : Route + (option Route * bool) :=
  match routes with
  | [] => inr (route, route_found)
  | r :: routes' =>
      let matched := pattern r url in
      let route_found := route_found || matched in
      if matched && bool_decide (method ∈ methods r) then inl r
      else scan_routes method url routes' (Some r) route_found
  end.

Definition method_not_supported (method url : string)
    (valid_methods : option (list string)) : PyError :=
  InvalidUsage ("Method " +:+ method +:+ " not allowed for URL " +:+ url) valid_methods.

(** [Api._dummy_router_get] (a static method): sanic's route lookup, with the
    methods of the offending route recorded on the 405 error. *)
Definition _dummy_router_get (router : Router) (method : string)
    (request : Request) : result Route :=
  let url := path request in
  match routes_static router !! url with
  | Some route =>
      if bool_decide (methods route ≠ []) && bool_decide (method ∉ methods route)
      then Raise (method_not_supported method url (Some (methods route)))
      else Ok route
  | None =>
      match scan_routes method url
              (default [] (routes_dynamic router !! url_hash url)) None false with
      | inl route => Ok route
      | inr (route, route_found) =>
          match scan_routes method url (routes_always_check router)
                  route route_found with
          | inl route => Ok route
          | inr (route, route_found) =>
              if route_found then
                match route with
                | Some route =>
                    Raise (method_not_supported method url (Some (methods route)))
                | None => Raise (AttributeError "'NoneType' object has no attribute 'methods'")
                end
              else Raise (NotFound ("Requested URL " +:+ url +:+ " not found"))
          end
      end
  end.

(** What [_should_use_fr_error_handler] returns: a bool, the route object the
    probe found, or [None] (the bare [except] falls off the end). *)
Inductive fr_answer :=
  | FrBool (b : bool)
  | FrRoute (route : Route)
  | FrNone.

(** [Api._should_use_fr_error_handler]: determine if the error should be
    handled by this library or by the host. An exception raised inside the
    [except InvalidUsage] clause leaves the function. *)
Definition _should_use_fr_error_handler (self : Api) (request : option Request)
    : result fr_answer :=
  match request with
  | None => Ok (FrBool false)
  | Some request =>
      match app request with
      | None => Ok (FrBool false)
      | Some app =>
          match _dummy_router_get (router app) (method request) request with
          | Ok route => Ok (FrRoute route)
          | Raise e =>
              if isinstance e "InvalidUsage" then
                try_route_method ←
                  match exc_valid_methods e with
                  | Some (m :: _) => Ok m
                  | Some [] => Raise StopIteration
                  | None =>
                      if decide (method request = "GET") then Ok "POST" else Ok "GET"
                  end;
                route ← _dummy_router_get (router app) try_route_method request;
                Ok (FrBool (owns_endpoint self (name route)))
              else if isinstance e "NotFound" then
                Ok (FrBool (catch_all_404s self))
              else Ok FrNone
          end
      end
  end.

(** [Api._has_fr_route]: whether the request was to an endpoint of this Api. *)
Definition _has_fr_route (self : Api) (request : option Request) : result bool :=
  route ← _should_use_fr_error_handler self request;
  match route with
  | FrBool true => Ok true
  | FrBool false | FrNone => Ok false
  | FrRoute route =>
      if bool_decide (handler route = None) || bool_decide (name route = "")
      then Ok false
      else Ok (owns_endpoint self (name route))
  end.

(** ** Error handling *)

(** The body, status code and headers an error resolves to. *)
Abbreviation resolution :=
  (gmap string pyval * Z * gmap string string)%type (only parsing).

(** [Api.handle_error], the [if]/[elif] chain that picks the handler
    (the statements from [if e.__class__ in self.error_handlers] to the final
    [else]); [headers] starts as an empty [CIDict]. *)
Definition resolve_error (self : Api) (e : PyError) : result resolution :=
  match error_handlers self !! exc_class e with
  | Some handler =>
      result ← handler e;
      Ok (unpack result 500)
  | None =>
      if isinstance e "SanicException" then
        code ← match exc_status_code e with
               | Some code => Ok code
               | None => Raise (AttributeError "status_code")
               end;
        let status :=
          match COMMON_STATUS_CODES !! code with
          | Some status => Some status
          | None => ALL_STATUS_CODES !! code
          end in
        let message :=
          match exc_message e with
          | Some message => message
          | None => match status with Some s => PStr s | None => PNone end
          end in
        Ok ({[ "message" := message ]}, code, ∅)
      else
        match _default_error_handler self with
        | Some handler =>
            result ← handler e;
            Ok (unpack result 500)
        | None =>
            let code := 500 in
            let status := default (exc_str e) (COMMON_STATUS_CODES !! code) in
            Ok ({[ "message" := PStr status ]}, code, ∅)
        end
  end.

(** [Api._help_on_404]: its first statement raises. *)
Definition _help_on_404 (self : Api) (request : Request) (message : option pyval)
    : result pyval :=
  Raise (NotImplementedError "Help on 404 is not yet implemented for Sanic-RestPlus").

(** [Api.unauthorized]: the name [current_app] is bound nowhere in the module. *)
Definition unauthorized (self : Api) (response : HTTPResponse) : result HTTPResponse :=
  if serve_challenge_on_401 self then
    Raise (NameError "name 'current_app' is not defined")
  else Ok response.

(** [for header in HEADERS_BLACKLIST: headers.pop(header, None)] *)
Definition remove_blacklisted (hdrs : gmap string string) : gmap string string :=
  foldr (λ header h, delete header h) hdrs HEADERS_BLACKLIST.

(** [Api.handle_error], the statements after the handler was picked: message
    defaulting, the [data] attribute, the per-code branches, the header
    blacklist and the rendering. *)
Definition finish_error (self : Api) (request : Request) (app : Sanic)
    (e : PyError) (r : resolution) : result HTTPResponse :=
  let '(default_data, code, hdrs) := r in
  let default_data :=
    <[ "message" := default (PStr (exc_str e)) (default_data !! "message") ]>
      default_data in
  let data := default (PyDict default_data) (exc_data e) in
  '(data, fallback_mediatype) ←
    (if bool_decide (500 ≤ code) then Ok (data, None)
     else if bool_decide (code = 404) && default true (config app !! "ERROR_404_HELP")
     then
       match data with
       | PyDict d =>
           help ← _help_on_404 self request (d !! "message");
           Ok (PyDict (<[ "message" := help ]> d), None)
       | PyOther _ => Raise (AttributeError "get")
       end
     else if bool_decide (code = 406) && bool_decide (default_mediatype self = None)
     then
       let supported_mediatypes := odict_keys (representations self) in
       Ok (data, Some (default "text/plain" (head supported_mediatypes)))
     else Ok (data, None));
  let hdrs := remove_blacklisted hdrs in
  resp ← make_response self request data code hdrs fallback_mediatype;
  if bool_decide (code = 401) then unauthorized self resp else Ok resp.

(** [Api.handle_error]: transforms a raised exception into a response with
    the appropriate status code and body. *)
Definition handle_error (self : Api) (request : option Request) (e : PyError)
    : result HTTPResponse :=
  app ← match request with
        | Some request =>
            match app request with
            | Some app => Ok (request, app)
            | None => Raise (AttributeError "app")
            end
        | None => Raise (AttributeError "'NoneType' object has no attribute 'app'")
        end;
  r ← resolve_error self e;
  finish_error self app.1 app.2 e r.

(** [ApiErrorHandler]: the error handler installed on the application, holding
    the host's original handler and the Api. *)
Record ApiErrorHandler := mkApiErrorHandler {
  original_handler : option Request → PyError → result HTTPResponse;
  api : Api;
}.

(** [ApiErrorHandler.response]: dispatches the error to the Api when it
    occurred in one of its endpoints, to the original handler otherwise.

    The local name [e] is tracked as Python 3 binds it: [except Exception as e]
    rebinds [e] to the caught exception and unbinds it when the clause ends, so
    after a caught failure of [handle_error] the name [e] is unbound and the
    final [return] statement raises [UnboundLocalError] while evaluating its
    arguments. An exception that is not an [Exception] is not caught. *)
Definition response (self : ApiErrorHandler) (request : option Request)
    (e : PyError) : result HTTPResponse :=
  has_fr_route ← _has_fr_route (api self) request;
  let fall_through (e_local : option PyError) :=
    match e_local with
    | Some e => original_handler self request e
    | None => Raise UnboundLocalError
    end in
  if (has_fr_route : bool) then
    match handle_error (api self) request e with
    | Ok resp => Ok resp
    | Raise e' =>
        if isinstance e' "Exception" then fall_through None
        else Raise e'
    end
  else fall_through (Some e).

(** * Statements

    The notions the properties below are stated with, and the properties as
    the specification words them. *)

(** ** Negotiation and rendering *)

(** No media type the request accepts (those of its Accept header;
    everything, when it has none) matches a registered representation. *)
Definition no_preference_matches (request : Request) (self : Api) : Prop :=
  ∀ pref key,
    pref ∈ accepted_mediatypes request →
    key ∈ odict_keys (representations self) →
    mimetype_matches pref key = false.

(** The effective default of a [make_response] call is usable: a media type
    that is registered, or [text/plain]. *)
Definition usable_default (self : Api) (default : option string) : Prop :=
  ∃ m, default = Some m ∧
       (m ∈ odict_keys (representations self) ∨ m = "text/plain").

(** The data a renderer put into the body, when the body still shows it. *)
Definition body_data (b : pybody) : option pydata :=
  match b with
  | JsonBody d | TextBody d => Some d
  | RawBody _ => None
  end.

(** A representation that renders what it is given: the status, the data and
    at least the headers. *)
Definition passes_on (f : renderer) : Prop :=
  ∀ request data code hdrs,
    status (f request data code hdrs) = code
    ∧ body_data (body (f request data code hdrs)) = Some data
    ∧ hdrs ⊆ headers (f request data code hdrs).

Definition faithful_representations (self : Api) : Prop :=
  ∀ mediatype f,
    odict_get mediatype (representations self) = Some f → passes_on f.

(** The round trip as the specification words it: every raw return value
    yields a response with the supplied code and with the supplied headers,
    the blacklisted names apart. *)
Definition output_round_trip : Prop :=
  ∀ self resource request r,
    faithful_representations self →
    resource request = Ok (ViewRaw r) →
    ∃ resp,
      output self resource request = Ok resp
      ∧ status resp = (unpack r 200).1.2
      ∧ filter (λ kv, kv.1 ∉ HEADERS_BLACKLIST) (unpack r 200).2 ⊆ headers resp.

(** ** The resolution order *)

(** The four resolution rules of the error taxonomy, in the order the
    specification lists them. *)
Inductive resolution_rule :=
  | ExactTypeMatch
  | FrameworkHttpError
  | RegisteredDefaultHandler
  | GenericFallback.

Global Instance resolution_rule_eq_dec : EqDecision resolution_rule.
Proof. solve_decision. Defined.

Definition resolution_order : list resolution_rule :=
  [ExactTypeMatch; FrameworkHttpError; RegisteredDefaultHandler; GenericFallback].

Definition rule_rank (rule : resolution_rule) : nat :=
  match rule with
  | ExactTypeMatch => 0
  | FrameworkHttpError => 1
  | RegisteredDefaultHandler => 2
  | GenericFallback => 3
  end.

(** What a handler function resolves an error to. *)
Definition handler_resolution (handler : error_handler) (e : PyError)
    : result resolution :=
  match handler e with
  | Ok result => Ok (unpack result 500)
  | Raise e' => Raise e'
  end.

(** What a framework HTTP error resolves to: its embedded code, and its own
    message or else the reason phrase of the code. *)
Definition embedded_resolution (e : PyError) : result resolution :=
  match exc_status_code e with
  | None => Raise (AttributeError "status_code")
  | Some code =>
      let phrase := from_option PStr PNone
                      (union_with (λ a _, Some a) (COMMON_STATUS_CODES !! code)
                                  (ALL_STATUS_CODES !! code)) in
      Ok ({[ "message" := default phrase (exc_message e) ]}, code, ∅)
  end.

(** The outcome of one rule taken alone, [None] when the rule does not apply
    to the error. *)
Definition rule_outcome (self : Api) (e : PyError) (rule : resolution_rule)
    : option (result resolution) :=
  match rule with
  | ExactTypeMatch =>
      handler ← error_handlers self !! exc_class e;
      Some (handler_resolution handler e)
  | FrameworkHttpError =>
      if isinstance e "SanicException" then Some (embedded_resolution e) else None
  | RegisteredDefaultHandler =>
      handler ← _default_error_handler self;
      Some (handler_resolution handler e)
  | GenericFallback =>
      Some (Ok ({[ "message" := PStr "Internal Server Error" ]}, 500, ∅))
  end.

(** The first rule of a list that applies. *)
Definition first_rule (self : Api) (e : PyError) (rules : list resolution_rule)
    : option resolution_rule :=
  List.find (λ rule, bool_decide (is_Some (rule_outcome self e rule))) rules.

(** ** Endpoint ownership *)

(** The operations that put endpoints into an Api's set. *)
Inductive registration :=
  | RegisterResource (namespace : Namespace) (resource : Resource)
      (urls : list string) (endpoint : option string)
  | InitApp.

(** Runs registrations in order; returns the Api and the endpoint names the
    operations added, in that order. *)
Fixpoint register_all (self : Api) (ops : list registration)
    : option (Api * list string) :=
  match ops with
  | [] => Some (self, [])
  | RegisterResource namespace resource urls endpoint :: ops' =>
      r ← register_resource self namespace resource urls endpoint;
      r' ← register_all r.1 ops';
      Some (r'.1, r.2 :: r'.2)
  | InitApp :: ops' =>
      r' ← register_all (init_app self) ops';
      Some (r'.1,
            ((if _add_specs self then ["specs" +:+ pretty (_uid self)] else [])
             ++ r'.2)%list)
  end.

(** The Api after the registrations, with the names they added. *)
Definition registered (self : Api) (ops : list registration) : Api * list string :=
  default (self, []) (register_all self ops).

(** The ownership property as the specification words it: an endpoint
    registered under one instance is never claimed by a distinct instance. *)
Definition ownership_sets_disjoint : Prop :=
  ∀ A0 B0 opsA opsB A B addedA addedB endpoint,
    endpoints A0 = ∅ → endpoints B0 = ∅ →
    _uid A0 ≠ _uid B0 →
    register_all A0 opsA = Some (A, addedA) →
    register_all B0 opsB = Some (B, addedB) →
    endpoint ∈ addedA →
    owns_endpoint B (Api_endpoint B endpoint) = false.

(** ** Probing the router *)

(** The request's path matches no registered route of the router: no static
    route, and no pattern of the dynamic routes the lookup visits. *)
Definition no_route_matches (router : Router) (url : string) : Prop :=
  routes_static router !! url = None
  ∧ (∀ route, route ∈ default [] (routes_dynamic router !! url_hash url) →
              pattern route url = false)
  ∧ (∀ route, route ∈ routes_always_check router → pattern route url = false).




(** ** The error body *)

(** The body [handle_error] hands to [make_response] when no branch replaces
    it: the resolved body with its message defaulted to [str(e)], unless the
    error has a [data] attribute, which then is the body. *)
Definition error_data (e : PyError) (default_data : gmap string pyval) : pydata :=
  default
    (PyDict (<[ "message" := default (PStr (exc_str e)) (default_data !! "message") ]>
               default_data))
    (exc_data e).

(** The generic fallback as the specification words it. *)
Definition unknown_error_is_generic_500 : Prop :=
  ∀ self request app0 e,
    app request = Some app0 →
    error_handlers self !! exc_class e = None →
    isinstance e "SanicException" = false →
    _default_error_handler self = None →
    faithful_representations self →
    ∃ resp,
      handle_error self (Some request) e = Ok resp
      ∧ status resp = 500
      ∧ body_data (body resp)
        = Some (PyDict {[ "message" := PStr "Internal Server Error" ]}).

(** The shape of the error body as the specification words it: a [message]
    string, together with the fields of the error's [data]. *)
Definition error_body_has_message : Prop :=
  ∀ self request e resp,
    faithful_representations self →
    handle_error self (Some request) e = Ok resp →
    ∃ d, body_data (body resp) = Some (PyDict d)
         ∧ (∃ s, d !! "message" = Some (PStr s))
         ∧ ∀ extra, exc_data e = Some (PyDict extra) → extra ⊆ d.

(** * Example objects *)

Definition todo_route : Route :=
  {| handler := Some "todo"; methods := ["GET"];
     pattern := λ url, bool_decide (url = "/todo"); name := "todo" |}.

Definition example_router : Router :=
  {| routes_static := {[ "/todo" := todo_route ]};
     routes_dynamic := ∅; routes_always_check := [] |}.

Definition example_app : Sanic :=
  {| router := example_router; config := ∅ |}.

(** The example application with the 404 help switched off. *)
Definition no_help_app : Sanic :=
  {| router := example_router; config := {[ "ERROR_404_HELP" := false ]} |}.

(** An application whose [/todo] accepts PUT only, and a GET request for it. *)
Definition put_only_app : Sanic :=
  {| router :=
       {| routes_static :=
            {[ "/todo" := {| handler := Some "todo"; methods := ["PUT"];
                             pattern := λ url, bool_decide (url = "/todo");
                             name := "todo" |} ]};
          routes_dynamic := ∅; routes_always_check := [] |};
     config := ∅ |}.

(** The application both instances are mounted on: each contributed a view
    named [todo], under its own URL. *)
Definition two_api_app : Sanic :=
  {| router :=
       {| routes_static :=
            {[ "/a/todo" := {| handler := Some "todo"; methods := ["GET"];
                               pattern := λ url, bool_decide (url = "/a/todo");
                               name := "todo" |};
               "/b/todo" := {| handler := Some "todo"; methods := ["GET"];
                               pattern := λ url, bool_decide (url = "/b/todo");
                               name := "todo" |} ]};
          routes_dynamic := ∅; routes_always_check := [] |};
     config := ∅ |}.

(** A GET request for [/todo] with the given parsed Accept header. *)
Definition todo_request (accept : list (string * N)) : Request :=
  {| path := "/todo"; method := "GET"; accept_mimetypes := accept;
     app := Some example_app |}.

Definition nowhere_request (app : Sanic) : Request :=
  {| path := "/nowhere"; method := "GET";
     accept_mimetypes := [("application/json", 1000%N)]; app := Some app |}.

Definition get_todo_on_put_only : Request :=
  {| path := "/todo"; method := "GET"; accept_mimetypes := [];
     app := Some put_only_app |}.

(** [Api(default_mediatype='application/xml')]: the default is not registered. *)
Definition xml_default_api : Api :=
  (Api__init__ 0 0 (Some "application/xml") false false).1.

(** [Api()] with the constructor's defaults, bound to an application. *)
Definition default_api : Api :=
  init_app (Api__init__ 0 0 (Some "application/json") false false).1.

(** Two instances made in one process, one after the other, each bound to the
    application and each given a resource class named [Todo]. *)
Definition two_apis : Api * Api :=
  let '(a, uid_counter) := Api__init__ 0 0 (Some "application/json") false false in
  let '(b, _) := Api__init__ uid_counter 1 (Some "application/json") false false in
  (a, b).

Definition register_todo (urls : list string) : list registration :=
  [InitApp; RegisterResource {| ns_id := 0; ns_name := "default" |}
              {| resource_dash_name := "todo" |} urls None].

Definition register_todo_b (urls : list string) : list registration :=
  [InitApp; RegisterResource {| ns_id := 1; ns_name := "default" |}
              {| resource_dash_name := "todo" |} urls None].

(** An Api bound to the application, with the resource [Todo] at [/todo]. *)
Definition todo_api (default_mediatype : option string) (catch_all_404s : bool) : Api :=
  (registered (Api__init__ 0 0 default_mediatype catch_all_404s false).1
     (register_todo ["/todo"])).1.

(** The host's own error rendering, as the original handler of the examples. *)
Definition host_handler (request : option Request) (e : PyError)
    : result HTTPResponse :=
  Ok {| status := default 500 (exc_status_code e); headers := ∅;
        body := RawBody ("Error: " +:+ exc_str e) |}.

(** A handler registered for [TeapotError] that itself fails. *)
Definition failing_handler (e : PyError)
    : result (raw_return (gmap string pyval)) :=
  Raise (builtin_error "ValueError" "boom").

Definition teapot_error : PyError := builtin_error "TeapotError" "short and stout".

Definition failing_handler_router : ApiErrorHandler :=
  {| original_handler := host_handler;
     api := errorhandler (todo_api (Some "application/json") false)
              "TeapotError" failing_handler |}.

(** An Api that catches unmatched routes, on an application with the default
    configuration, and a request for a path nobody registered. *)
Definition catch_all_router : ApiErrorHandler :=
  {| original_handler := host_handler;
     api := todo_api (Some "application/json") true |}.

(** A resource returning [({'id': 1}, 200, {'Content-Type': 'text/csv',
    'X-Total': '1'})]. *)
Definition csv_resource (request : Request) : result view_return :=
  Ok (ViewRaw (Ret3 (PyDict {[ "id" := PInt 1 ]}) 200
                 {[ "Content-Type" := "text/csv"; "X-Total" := "1" ]})).

(** A resource returning [({'id': 1}, 201)]. *)
Definition created_resource (request : Request) : result view_return :=
  Ok (ViewRaw (Ret2 (PyDict {[ "id" := PInt 1 ]}) 201)).

(** An application error that carries a [data] attribute (and no message):
    [e.data = {'errors': 'name is required'}]. *)
Definition validation_error : PyError :=
  {| exc_class := "ValidationError"; exc_mro := ["ValidationError"; "Exception"];
     exc_str := "invalid"; exc_status_code := None; exc_message := None;
     exc_data := Some (PyDict {[ "errors" := PStr "name is required" ]});
     exc_valid_methods := None |}.

(** An application error without attributes of its own. *)
Definition runtime_error : PyError := builtin_error "RuntimeError" "boom".

(** A handler for [ValidationError] returning [({'message': 'Invalid input'}, 400)]. *)
Definition validation_handler (e : PyError)
    : result (raw_return (gmap string pyval)) :=
  Ok (Ret2 {[ "message" := PStr "Invalid input" ]} 400).

Definition validating_api : Api :=
  errorhandler default_api "ValidationError" validation_handler.

(** A resource returning the raw dict [{'id': 1}]. *)
Definition widget_resource (request : Request) : result view_return :=
  Ok (ViewRaw (Ret1 (PyDict {[ "id" := PInt 1 ]}))).

(** The toolkit's mask-parse error, as raised for a malformed field mask. *)
Definition parse_error : PyError := builtin_error "ParseError" "Missing opening bracket".

(** * Further statements

    Notions used by the properties of registration, lookup and error handling
    beyond the ones above. *)

(** The name [default_endpoint] starts from: the dashed class name, behind the
    namespace's name for every namespace but the default one. *)
Definition endpoint_base (self : Api) (resource : Resource)
    (namespace : Namespace) : string :=
  if decide (ns_id namespace ≠ ns_id (default_namespace self))
  then ns_name namespace +:+ "_" +:+ resource_dash_name resource
  else resource_dash_name resource.

(** A registration that leaves the endpoint name to [default_endpoint]. *)
Definition default_registration (op : registration) : Prop :=
  match op with
  | RegisterResource _ _ _ endpoint => py_or endpoint None = None
  | InitApp => False
  end.

(** The order [sorted(..., key=itemgetter(1), reverse=True)] establishes. *)
Definition quality_ge (x y : string * N) : Prop := (y.2 ≤ x.2)%N.

(** The routes a lookup without static hit goes through, in order: the bucket
    of the path's hash, then the routes that are always checked. *)
Definition dynamic_candidates (router : Router) (url : string) : list Route :=
  default [] (routes_dynamic router !! url_hash url) ++ routes_always_check router.

(** The route's pattern matches the path and its methods contain the method. *)
Definition route_accepts (method url : string) (route : Route) : bool :=
  pattern route url && bool_decide (method ∈ methods route).

(** An application with two dynamic routes on one-segment paths: [/<id>]
    (GET only), which matches every such path, and one for [/admin] (POST
    only), registered after it. *)
Definition item_route : Route :=
  {| handler := Some "item"; methods := ["GET"];
     pattern := λ url, bool_decide (url_hash url = 1%nat); name := "item" |}.

Definition admin_route : Route :=
  {| handler := Some "admin"; methods := ["POST"];
     pattern := λ url, bool_decide (url = "/admin"); name := "admin" |}.

Definition dynamic_app : Sanic :=
  {| router := {| routes_static := ∅;
                  routes_dynamic := {[ 1%nat := [item_route; admin_route] ]};
                  routes_always_check := [] |};
     config := ∅ |}.

Definition delete_item_request : Request :=
  {| path := "/42"; method := "DELETE"; accept_mimetypes := [];
     app := Some dynamic_app |}.

(** The request gives this Api nothing to claim: there is no request or no
    application on it, or its route resolves to a route without handler or
    name, or to one whose name the Api does not own. *)
Definition not_of_this_api (self : Api) (request : option Request) : Prop :=
  match request with
  | None => True
  | Some request =>
      match app request with
      | None => True
      | Some app0 =>
          ∃ route,
            _dummy_router_get (router app0) (method request) request = Ok route
            ∧ (handler route = None ∨ name route = ""
               ∨ owns_endpoint self (name route) = false)
      end
  end.


(** A handler answering [({'message': 'Unauthorized'}, 401,
    {'Content-Length': '12', 'X-Reason': 'token'})]. *)
Definition unauthorized_handler (e : PyError)
    : result (raw_return (gmap string pyval)) :=
  Ok (Ret3 {[ "message" := PStr "Unauthorized" ]} 401
        {[ "Content-Length" := "12"; "X-Reason" := "token" ]}).

(** A handler answering [({'detail': 'no such item'}, 404)]. *)
Definition missing_item_handler (e : PyError)
    : result (raw_return (gmap string pyval)) :=
  Ok (Ret2 {[ "detail" := PStr "no such item" ]} 404).

(** A handler answering [{'detail': 'conflict'}, 409, {'Content-Length': '7'}]. *)
Definition conflict_handler (e : PyError)
    : result (raw_return (gmap string pyval)) :=
  Ok (Ret3 {[ "detail" := PStr "conflict" ]} 409 {[ "Content-Length" := "7" ]}).

(** A GET request for [/42] on the application with two dynamic routes; it
    resolves to the route named [item], which the example Apis do not own. *)
Definition item_request : Request :=
  {| path := "/42"; method := "GET"; accept_mimetypes := [];
     app := Some dynamic_app |}.

(** * Namespaces

    [Api.add_namespace] and what it calls. The attributes of the Api it
    touches beyond those of [Api] ([namespaces], [ns_paths], [models]) are
    kept beside the Api in [ApiNamespaces]; a namespace object is the record
    of the attributes the method reads and updates. *)

Record NamespaceObj := mkNamespaceObj {
  ns_self : Namespace;                                   (* identity, ns.name *)
  ns_path : string;                                      (* ns.path *)
  ns_resources : list (Resource * list string * option string);
                                  (* (resource, urls, kwargs.get('endpoint')) *)
  ns_models : gmap string string;                        (* name -> definition *)
  ns_error_handlers : gmap string (PyError → result (raw_return (gmap string pyval)));
  ns_apis : list nat;                                    (* the Apis, by uid *)
}.

Record ApiNamespaces := mkApiNamespaces {
  api_of : Api;
  namespaces : list nat;                                 (* by identity *)
  ns_paths : gmap nat string;
  models : gmap string string;
}.

(** The Api with [self.error_handlers] replaced. *)
Definition set_error_handlers (self : Api)
    (handlers : gmap string (PyError → result (raw_return (gmap string pyval))))
    : Api :=
  {| _uid := _uid self; _add_specs := _add_specs self;
     _default_error_handler := _default_error_handler self;
     error_handlers := handlers;
     default_namespace := default_namespace self;
     representations := representations self;
     default_mediatype := default_mediatype self;
     catch_all_404s := catch_all_404s self;
     serve_challenge_on_401 := serve_challenge_on_401 self;
     endpoints := endpoints self; resources := resources self;
     api_app := api_app self; blueprint := blueprint self |}.

(** [Api.get_ns_path] *)
Definition get_ns_path (self : ApiNamespaces) (ns : NamespaceObj) : option string :=
  ns_paths self !! ns_id (ns_self ns).

(** [Api.ns_urls]: [path = self.get_ns_path(ns) or ns.path]. *)
Definition ns_urls (self : ApiNamespaces) (ns : NamespaceObj) (urls : list string)
    : list string :=
  let path := default (ns_path ns) (py_or (get_ns_path self ns) None) in
  (λ url, path +:+ url) <$> urls.

(** The loop [for resource, urls, kwargs in ns.resources] of [add_namespace];
    [paths] is the Api state [ns_urls] reads, which the loop leaves alone. *)
Fixpoint register_ns_resources (paths : ApiNamespaces) (ns : NamespaceObj)
    (self : Api) (rs : list (Resource * list string * option string))
    : option Api :=
  match rs with
  | [] => Some self
  | (resource, urls, endpoint) :: rs' =>
      r ← register_resource self (ns_self ns) resource (ns_urls paths ns urls) endpoint;
      register_ns_resources paths ns r.1 rs'
  end.

(** [for key, value in d.items(): target[key] = value] *)
Definition dict_update {V} (target d : gmap string V) : gmap string V :=
  map_fold (λ key value acc, <[ key := value ]> acc) target d.

(** [Api.add_namespace]: registers the resources, models and error handlers
    of a namespace; returns the Api state and the namespace object. *)
Definition add_namespace (self : ApiNamespaces) (ns : NamespaceObj)
    (path : option string) : option (ApiNamespaces * NamespaceObj) :=
  let ident := ns_id (ns_self ns) in
  let self1 :=
    if decide (ident ∈ namespaces self) then self
    else {| api_of := api_of self;
            namespaces := (namespaces self ++ [ident])%list;
            ns_paths := match path with
                        | Some path => <[ ident := path ]> (ns_paths self)
                        | None => ns_paths self
                        end;
            models := models self |} in
  let ns1 :=
    if decide (ident ∈ namespaces self) then ns
    else if decide (_uid (api_of self) ∈ ns_apis ns) then ns
    else {| ns_self := ns_self ns; ns_path := ns_path ns;
            ns_resources := ns_resources ns; ns_models := ns_models ns;
            ns_error_handlers := ns_error_handlers ns;
            ns_apis := (ns_apis ns ++ [_uid (api_of self)])%list |} in
  api1 ← register_ns_resources self1 ns (api_of self1) (ns_resources ns);
  Some ({| api_of := set_error_handlers api1
                       (dict_update (error_handlers api1) (ns_error_handlers ns));
           namespaces := namespaces self1;
           ns_paths := ns_paths self1;
           models := dict_update (models self1) (ns_models ns) |}, ns1).

(** An Api without application, with its namespace bookkeeping empty. *)
Definition fresh_api_namespaces : ApiNamespaces :=
  {| api_of := (Api__init__ 0 0 (Some "application/json") false false).1;
     namespaces := []; ns_paths := ∅; models := ∅ |}.

(** A namespace [todos] at [/todos] with two resources, a model and a handler
    of its own for [ParseError]. *)
Definition todos_namespace : NamespaceObj :=
  {| ns_self := {| ns_id := 3; ns_name := "todos" |};
     ns_path := "/todos";
     ns_resources := [({| resource_dash_name := "todo-list" |}, ["/"], None);
                      ({| resource_dash_name := "todo" |}, ["/<id>"], None)];
     ns_models := {[ "Todo" := "todo model" ]};
     ns_error_handlers := {[ "ParseError" := validation_handler ]};
     ns_apis := [] |}.

(** The Api state after [api.add_namespace(todos, path='/api/todos')]. *)
Definition todos_added : ApiNamespaces :=
  (default (fresh_api_namespaces, todos_namespace)
     (add_namespace fresh_api_namespaces todos_namespace (Some "/api/todos"))).1.

(** * The documentation blueprint

    What [_register_apidoc] reads and writes on the application: the
    [extensions] attribute (absent on a new application) and the blueprints
    registered with [app.blueprint]. *)
Record AppExtensions := mkAppExtensions {
  extensions : option (gmap string (gmap string bool));
  app_blueprints : list string;
}.

(** [Api._register_apidoc]: registers the documentation blueprint unless the
    application is marked as having it, and marks the application. *)
Definition _register_apidoc (app : AppExtensions) : AppExtensions :=
  let exts := default ∅ (extensions app) in
  let conf := default ∅ (exts !! "restplus") in
  {| extensions :=
       Some (<[ "restplus" := <[ "apidoc_registered" := true ]> conf ]> exts);
     app_blueprints :=
       if default false (conf !! "apidoc_registered") then app_blueprints app
       else (app_blueprints app ++ ["apidoc"])%list |}.


(** A mask that cannot be parsed, as [mask.ParseError] is raised for it. *)
Definition mask_parse_error : PyError := builtin_error "ParseError" "Missing opening bracket".

(** * Properties *)

(** ** The embedding on the scenarios of the specification *)

(** A raw dict is rendered as JSON with status 200. *)
Example widget_scenario :
  output default_api widget_resource (todo_request [("application/json", 1000%N)])
  = Ok {| status := 200;
          headers := {[ "Content-Type" := "application/json" ]};
          body := JsonBody (PyDict {[ "id" := PInt 1 ]}) |}.
Proof. vm_compute. reflexivity. Qed.

(** The mask-parse error is answered by its registered handler, with 400. *)
Example mask_parse_error_scenario :
  handle_error default_api (Some (todo_request [("application/json", 1000%N)]))
    parse_error
  = Ok {| status := 400;
          headers := {[ "Content-Type" := "application/json" ]};
          body := JsonBody
                    (PyDict {[ "message" :=
                                 PStr "Mask parse error: Missing opening bracket" ]}) |}.
Proof. vm_compute. reflexivity. Qed.

(** The best quality wins, wildcards match registered types, a request
    without Accept header accepts the first registered type, and when nothing
    matches a usable default answers and an unusable one does not. *)
Example negotiation_scenarios :
  best_match_accept_mimetype
    (todo_request [("text/html", 900%N); ("application/*", 1000%N)])
    DEFAULT_REPRESENTATIONS (Some "text/plain") = Some "application/json"
  ∧ best_match_accept_mimetype (todo_request [("*/*", 1000%N)])
      DEFAULT_REPRESENTATIONS None = Some "application/json"
  ∧ best_match_accept_mimetype (todo_request [("text/html", 1000%N)])
      DEFAULT_REPRESENTATIONS (Some "text/plain") = Some "text/plain"
  ∧ best_match_accept_mimetype (todo_request [("text/html", 1000%N)])
      DEFAULT_REPRESENTATIONS (Some "application/xml") = None
  ∧ best_match_accept_mimetype (todo_request [])
      DEFAULT_REPRESENTATIONS (Some "application/xml") = Some "application/json"
  ∧ mediatypes (todo_request [("a/b", 500%N); ("c/d", 1000%N); ("e/f", 500%N)])
    = ["c/d"; "a/b"; "e/f"].
Proof. vm_compute. repeat split. Qed.

(** An endpoint name already taken gets the first free numeric suffix. *)
Example default_endpoint_scenario :
  default_endpoint (todo_api (Some "application/json") false)
    {| resource_dash_name := "todo" |} {| ns_id := 0; ns_name := "default" |}
  = Some "todo_2"
  ∧ default_endpoint (todo_api (Some "application/json") false)
      {| resource_dash_name := "todo" |} {| ns_id := 7; ns_name := "admin" |}
    = Some "admin_todo".
Proof. vm_compute. repeat split. Qed.

(** A request on an owned route is claimed, one on a foreign route is not, and
    [owns_endpoint] strips the blueprint part of a name. *)
Example ownership_scenarios :
  _has_fr_route (todo_api (Some "application/json") false)
    (Some (todo_request [])) = Ok true
  ∧ _has_fr_route xml_default_api (Some (todo_request [])) = Ok false
  ∧ _has_fr_route default_api None = Ok false
  ∧ split1_last "bp.todo" "bp." = "todo"
  ∧ split1_last "todo" "bp." = "todo".
Proof. vm_compute. repeat split. Qed.

(** ** Ordered dictionaries *)

Lemma odict_get_Some {V} k (d : list (string * V)) :
  is_Some (odict_get k d) ↔ k ∈ odict_keys d.
Proof.
  induction d as [|[k' v] d IH]; simpl.
  - split; [intros [? ?]; discriminate | intros H; inversion H].
  - case_decide as Hk.
    + subst. split; [intros _; left | eauto].
    + rewrite IH. split; [by right |].
      intros H. inversion H; by subst.
Qed.

Lemma odict_get_None {V} k (d : list (string * V)) :
  odict_get k d = None ↔ k ∉ odict_keys d.
Proof. rewrite <- odict_get_Some, eq_None_not_Some. done. Qed.

(** ** Negotiation *)

Lemma insert_by_quality_perm x l : insert_by_quality x l ≡ₚ x :: l.
Proof.
  induction l as [|y l IH]; simpl; [done |].
  destruct (x.2 <? y.2)%N; [| done].
  rewrite IH. apply Permutation_swap.
Qed.

Lemma sorted_by_quality_perm l : sorted_by_quality l ≡ₚ l.
Proof.
  induction l as [|x l IH]; simpl; [done |].
  rewrite insert_by_quality_perm. by rewrite IH.
Qed.

(** The requested media types are those of the Accept header, reordered. *)
Lemma elem_of_mediatypes request pref :
  pref ∈ mediatypes request ↔ ∃ q, (pref, q) ∈ accept_mimetypes request.
Proof.
  unfold mediatypes. rewrite sorted_by_quality_perm, list_elem_of_fmap. split.
  - intros [[p q] [-> Hin]]. by exists q.
  - intros [q Hin]. by exists (pref, q).
Qed.

Lemma first_match_Some prefs keys key :
  first_match prefs keys = Some key →
  key ∈ keys ∧ ∃ pref, pref ∈ prefs ∧ mimetype_matches pref key = true.
Proof.
  induction prefs as [|pref prefs IH]; simpl; [done |].
  destruct (List.find _ keys) as [k|] eqn:Hfind.
  - intros [= ->]. apply find_some in Hfind as [Hin Hm].
    split; [by apply list_elem_of_In |]. exists pref. split; [left | done].
  - intros H. destruct (IH H) as [Hin (p & Hp & Hm)].
    split; [done |]. exists p. split; [by right | done].
Qed.

Lemma first_match_None prefs keys :
  first_match prefs keys = None ↔
  ∀ pref key, pref ∈ prefs → key ∈ keys → mimetype_matches pref key = false.
Proof.
  induction prefs as [|pref prefs IH]; simpl.
  - split; [intros _ ? ? H; inversion H | done].
  - destruct (List.find _ keys) as [k|] eqn:Hfind.
    + split; [done |]. intros H. apply find_some in Hfind as [Hin Hm].
      rewrite (H pref k) in Hm; [done | left | by apply list_elem_of_In].
    + rewrite IH. split.
      * intros H p k Hp Hk. inversion Hp; subst; [| by apply H].
        apply (find_none _ _ Hfind). by apply list_elem_of_In.
      * intros H p k Hp Hk. apply H; [by right | done].
Qed.

Lemma best_match_no_preference request self default :
  no_preference_matches request self →
  best_match_accept_mimetype request (representations self) default
  = match default with
    | Some m =>
        if decide (m ∈ odict_keys (representations self) ∨ m = "text/plain")
        then Some m else None
    | None => None
    end.
Proof.
  intros Hno. unfold best_match_accept_mimetype.
  replace (first_match _ _) with (@None string); [done |].
  symmetry. by apply first_match_None.
Qed.

(** The negotiated media type is a registered one, or the default. *)
Lemma best_match_registered_or_default {V} request (reps : list (string * V)) default m :
  best_match_accept_mimetype request reps default = Some m →
  m ∈ odict_keys reps ∨ default = Some m.
Proof.
  unfold best_match_accept_mimetype.
  destruct (first_match _ _) as [k|] eqn:Hfm.
  - intros [= ->]. left. by apply first_match_Some in Hfm as [? _].
  - destruct default as [d|]; [| done]. case_decide; [| done]. by right.
Qed.

(** The helper never answers a media type that [make_response] cannot render. *)
Lemma best_match_usable {V} request (reps : list (string * V)) default m :
  best_match_accept_mimetype request reps default = Some m →
  m ∈ odict_keys reps ∨ m = "text/plain".
Proof.
  unfold best_match_accept_mimetype.
  destruct (first_match _ _) as [k|] eqn:Hfm.
  - intros [= ->]. left. by apply first_match_Some in Hfm as [? _].
  - destruct default as [d|]; [| done]. case_decide; [| done]. by intros [= <-].
Qed.

(** ** [make_response] *)

(** The outcome of [make_response] in terms of the negotiated media type. *)
Lemma make_response_unfold self request data code hdrs fallback :
  make_response self request data code hdrs fallback =
  match best_match_accept_mimetype request (representations self)
          (py_or fallback (default_mediatype self)) with
  | None => Raise (SanicException "Not Acceptable" (Some 406))
  | Some m =>
      match odict_get m (representations self) with
      | Some f => Ok (set_header "Content-Type" m (f request data code hdrs))
      | None =>
          if decide (m = "text/plain")
          then Ok (set_header "Content-Type" "text/plain" (text request data code hdrs))
          else Raise (ServerError "None")
      end
  end.
Proof. reflexivity. Qed.

Lemma html_matches_nothing_registered :
  no_preference_matches (todo_request [("text/html", 1000%N)]) xml_default_api.
Proof.
  intros pref key Hp Hk.
  apply list_elem_of_singleton in Hp as ->.
  apply list_elem_of_singleton in Hk as ->.
  reflexivity.
Qed.

Lemma html_matches_nothing_registered_json :
  no_preference_matches (todo_request [("text/html", 1000%N)]) default_api.
Proof.
  intros pref key Hp Hk.
  apply list_elem_of_singleton in Hp as ->.
  apply list_elem_of_singleton in Hk as ->.
  reflexivity.
Qed.

Lemma xml_default_not_usable :
  ¬ usable_default xml_default_api (py_or None (default_mediatype xml_default_api)).
Proof.
  intros (m & [= <-] & [Hin | Heq]); [| done].
  by apply list_elem_of_singleton in Hin.
Qed.

(** C1: when no media type the request accepts in its Accept header matches
    a registered representation, [make_response] answers with the effective
    default (the fallback media type, or else [default_mediatype]) only when
    that is registered or is [text/plain]: it then renders with the default's
    representation, or with the plain-text renderer, and declares the default
    as [Content-Type]. In every other case it raises Not Acceptable (406) and
    no other error. *)
Theorem make_response_without_match self request data code hdrs fallback :
  no_preference_matches request self →
  (∀ m, py_or fallback (default_mediatype self) = Some m →
        m ∈ odict_keys (representations self) ∨ m = "text/plain" →
        make_response self request data code hdrs fallback
        = Ok (set_header "Content-Type" m
                (default text (odict_get m (representations self))
                   request data code hdrs)))
  ∧ (¬ usable_default self (py_or fallback (default_mediatype self)) →
     make_response self request data code hdrs fallback
     = Raise (SanicException "Not Acceptable" (Some 406))
     ∧ exc_status_code (SanicException "Not Acceptable" (Some 406)) = Some 406).
Proof.
  intros Hno. rewrite make_response_unfold.
  rewrite (best_match_no_preference _ _ _ Hno). split.
  - intros m -> Hm. rewrite decide_True by done.
    destruct (odict_get m (representations self)) as [f|] eqn:Hf; [done |].
    apply odict_get_None in Hf. destruct Hm as [Hin | ->]; [done |].
    by rewrite decide_True.
  - intros Hunusable.
    destruct (py_or fallback (default_mediatype self)) as [m|]; [| done].
    rewrite decide_False; [done |].
    intros Hm. apply Hunusable. by exists m.
Qed.

Lemma make_response_without_match_witness :
  make_response default_api (todo_request [("text/html", 1000%N)])
    (PyDict ∅) 200 ∅ None
  = Ok (set_header "Content-Type" "application/json"
          (default text (odict_get "application/json" (representations default_api))
             (todo_request [("text/html", 1000%N)]) (PyDict ∅) 200 ∅))
  ∧ make_response xml_default_api (todo_request [("text/html", 1000%N)])
      (PyDict ∅) 200 ∅ None
    = Raise (SanicException "Not Acceptable" (Some 406))
  ∧ exc_status_code (SanicException "Not Acceptable" (Some 406)) = Some 406.
Proof.
  split.
  - apply (proj1 (make_response_without_match default_api
                    (todo_request [("text/html", 1000%N)]) (PyDict ∅) 200 ∅ None
                    html_matches_nothing_registered_json)).
    + reflexivity.
    + left. vm_compute. left.
  - exact (proj2 (make_response_without_match xml_default_api
                    (todo_request [("text/html", 1000%N)]) (PyDict ∅) 200 ∅ None
                    html_matches_nothing_registered)
             xml_default_not_usable).
Defined.

(** ** [handle_error]: the resolution order *)

(** C2: for every error, [handle_error] resolves it by exactly one rule, the
    first of (1) exact type in the handler registry, (2) framework HTTP error,
    (3) registered default handler, (4) generic 500 that applies: the
    resolution is the outcome of that rule alone, every rule before it does
    not apply, and the response is built from that resolution only. *)
Theorem handle_error_resolution_order self e :
  ∃ rule,
    first_rule self e resolution_order = Some rule
    ∧ rule_outcome self e rule = Some (resolve_error self e)
    ∧ (∀ rule', rule_rank rule' < rule_rank rule → rule_outcome self e rule' = None)%nat
    ∧ ∀ request app0,
        app request = Some app0 →
        handle_error self (Some request) e
        = r ← resolve_error self e; finish_error self request app0 e r.
Proof.
  assert (Hhandle : ∀ request app0, app request = Some app0 →
            handle_error self (Some request) e
            = r ← resolve_error self e; finish_error self request app0 e r).
  { intros request app0 Happ. unfold handle_error. by rewrite Happ. }
  unfold first_rule, resolution_order.
  destruct (error_handlers self !! exc_class e) as [h|] eqn:Hh.
  { exists ExactTypeMatch. simpl. rewrite Hh. simpl.
    split; [done |]. split; [| split; [| done]].
    - unfold resolve_error, handler_resolution. rewrite ?Hh. simpl. by destruct (h e).
    - intros r' Hr'. simpl in Hr'. lia. }
  destruct (isinstance e "SanicException") eqn:Hs.
  { exists FrameworkHttpError. simpl. rewrite Hh, Hs. simpl.
    split; [done |]. split; [| split; [| done]].
    - unfold resolve_error, embedded_resolution. rewrite ?Hh, ?Hs. simpl.
      destruct (exc_status_code e) as [code|]; simpl; [| done].
      destruct (COMMON_STATUS_CODES !! code), (ALL_STATUS_CODES !! code),
        (exc_message e); done.
    - intros [] Hr'; simpl in Hr'; try lia; simpl; by rewrite ?Hh, ?Hs. }
  destruct (_default_error_handler self) as [h|] eqn:Hd.
  { exists RegisteredDefaultHandler. simpl. rewrite Hh, Hs, Hd. simpl.
    split; [done |]. split; [| split; [| done]].
    - unfold resolve_error, handler_resolution. rewrite ?Hh, ?Hs, ?Hd. simpl.
      by destruct (h e).
    - intros [] Hr'; simpl in Hr'; try lia; simpl; by rewrite ?Hh, ?Hs, ?Hd. }
  exists GenericFallback. simpl. rewrite Hh, Hs, Hd. simpl.
  split; [done |]. split; [| split; [| done]].
  - unfold resolve_error. by rewrite ?Hh, ?Hs, ?Hd.
  - intros [] Hr'; simpl in Hr'; try lia; simpl; by rewrite ?Hh, ?Hs, ?Hd.
Qed.

(** ** Endpoint registration and ownership *)

Lemma default_endpoint_loop_None fuel eps base suffix :
  default_endpoint_loop fuel eps base suffix = None →
  ∀ i, (i < fuel)%nat → base +:+ "_" +:+ pretty (suffix + i)%nat ∈ eps.
Proof.
  revert suffix. induction fuel as [|fuel IH]; intros suffix Hnone i Hi; [lia |].
  simpl in Hnone. case_decide as Hin; [| done].
  destruct i as [|i].
  - by rewrite Nat.add_0_r.
  - replace (suffix + S i)%nat with (S suffix + i)%nat by lia.
    apply IH; [done | lia].
Qed.

Lemma default_endpoint_loop_fresh fuel eps base suffix endpoint :
  default_endpoint_loop fuel eps base suffix = Some endpoint → endpoint ∉ eps.
Proof.
  revert suffix. induction fuel as [|fuel IH]; intros suffix; simpl; [done |].
  case_decide as Hin; [apply IH | by intros [= <-]].
Qed.

(** The search for a free suffix finds one within [size eps + 1] rounds. *)
Lemma default_endpoint_loop_returns eps base suffix :
  is_Some (default_endpoint_loop (S (size eps)) eps base suffix).
Proof.
  destruct (default_endpoint_loop _ eps base suffix) eqn:Hloop; [by eexists |].
  exfalso.
  pose proof (default_endpoint_loop_None _ _ _ _ Hloop) as Hall.
  set (names := (λ i, base +:+ "_" +:+ pretty (suffix + i)%nat) <$> seq 0 (S (size eps))).
  assert (Hnodup : NoDup names).
  { apply NoDup_fmap_2; [| apply NoDup_seq].
    intros i j Heq. apply (inj (String.app base)) in Heq.
    apply (inj (String.app "_")) in Heq. apply (inj pretty) in Heq. lia. }
  assert (Hsub : list_to_set names ⊆ eps).
  { intros x Hx. apply elem_of_list_to_set, list_elem_of_fmap in Hx as (i & -> & Hi).
    apply Hall. apply elem_of_seq in Hi. lia. }
  apply subseteq_size in Hsub.
  rewrite size_list_to_set in Hsub by done.
  unfold names in Hsub. rewrite length_fmap, length_seq in Hsub. lia.
Qed.

(** [default_endpoint] always returns, and its endpoint does not collide with
    an endpoint of the Api. *)
Lemma default_endpoint_returns self resource namespace :
  ∃ endpoint, default_endpoint self resource namespace = Some endpoint
              ∧ endpoint ∉ endpoints self.
Proof.
  unfold default_endpoint. case_decide as Hin.
  - destruct (default_endpoint_loop_returns (endpoints self)
                (if decide (ns_id namespace ≠ ns_id (default_namespace self))
                 then ns_name namespace +:+ "_" +:+ resource_dash_name resource
                 else resource_dash_name resource) 2) as [ep Hep].
    exists ep. split; [done |]. by eapply default_endpoint_loop_fresh.
  - eauto.
Qed.

Lemma register_resource_returns self namespace resource urls endpoint :
  ∃ self' name,
    register_resource self namespace resource urls endpoint = Some (self', name)
    ∧ endpoints self' = {[ name ]} ∪ endpoints self
    ∧ blueprint self' = blueprint self.
Proof.
  unfold register_resource.
  destruct (default_endpoint_returns self resource namespace) as (ep & Hep & _).
  destruct (py_or endpoint None) as [given|]; simpl.
  - destruct (api_app self); eauto.
  - rewrite Hep. simpl. destruct (api_app self); eauto.
Qed.

Lemma init_app_endpoints self :
  endpoints (init_app self)
  = list_to_set (if _add_specs self then ["specs" +:+ pretty (_uid self)] else [])
    ∪ endpoints self
  ∧ blueprint (init_app self) = blueprint self.
Proof.
  unfold init_app, _register_specs. simpl.
  destruct (_add_specs self); simpl; split; try done; set_solver.
Qed.

(** Registration always returns, and the endpoint set grows by exactly the
    names the operations added. *)
Lemma register_all_endpoints self ops :
  ∃ self' added,
    register_all self ops = Some (self', added)
    ∧ endpoints self' = list_to_set added ∪ endpoints self
    ∧ blueprint self' = blueprint self.
Proof.
  revert self. induction ops as [|op ops IH]; intros self; simpl.
  - exists self, []. split; [done |]. split; [set_solver | done].
  - destruct op as [ns r urls ep|].
    + destruct (register_resource_returns self ns r urls ep)
        as (self1 & name1 & -> & Heps1 & Hbp1). simpl.
      destruct (IH self1) as (self2 & added & -> & Heps2 & Hbp2). simpl.
      eexists _, _. split; [done |]. split; [| congruence].
      rewrite Heps2, Heps1. set_solver.
    + destruct (init_app_endpoints self) as [Heps1 Hbp1].
      destruct (IH (init_app self)) as (self2 & added & -> & Heps2 & Hbp2). simpl.
      eexists _, _. split; [done |]. split; [| congruence].
      rewrite Heps2, Heps1. rewrite list_to_set_app_L. set_solver.
Qed.

Lemma startswith_app p s : startswith (p +:+ s) p = true.
Proof.
  induction p as [|c p IH]; simpl; [by destruct s |].
  by rewrite decide_True.
Qed.

Lemma string_drop_app p s : string_drop (String.length p) (p +:+ s) = s.
Proof. induction p as [|c p IH]; simpl; [by destruct s | done]. Qed.

Lemma string_app_assoc (a b c : string) : (a +:+ b) +:+ c = a +:+ b +:+ c.
Proof.
  induction a as [|x a IH]; [done |].
  change (String x ((a +:+ b) +:+ c) = String x (a +:+ b +:+ c)).
  by rewrite IH.
Qed.

(** Stripping the blueprint part gives back the endpoint name. *)
Lemma split1_last_prefixed p s : split1_last (p +:+ s) p = s.
Proof.
  unfold split1_last.
  destruct p as [|c p]; simpl.
  - by destruct s.
  - rewrite decide_True by done.
    pose proof (startswith_app p s) as ->. simpl.
    by rewrite string_drop_app.
Qed.

(** An Api owns the application-level name of an endpoint exactly when the
    endpoint is in its set. *)
Lemma owns_endpoint_Api_endpoint self name :
  owns_endpoint self (Api_endpoint self name) = true ↔ name ∈ endpoints self.
Proof.
  unfold owns_endpoint, Api_endpoint.
  destruct (blueprint self) as [bp|]; [| apply bool_decide_eq_true].
  rewrite startswith_app.
  replace (bp +:+ "." +:+ name) with ((bp +:+ ".") +:+ name).
  - rewrite split1_last_prefixed. apply bool_decide_eq_true.
  - apply string_app_assoc.
Qed.

(** C3, as worded, fails: two instances of one process that each register a
    resource class named [Todo] both hold the endpoint [todo]; the second
    instance owns the endpoint registered under the first, and claims an error
    raised on the first instance's route. *)
Lemma same_endpoint_name_owned_by_both :
  let A := registered two_apis.1 (register_todo ["/a/todo"]) in
  let B := registered two_apis.2 (register_todo_b ["/b/todo"]) in
  register_all two_apis.1 (register_todo ["/a/todo"]) = Some A
  ∧ register_all two_apis.2 (register_todo_b ["/b/todo"]) = Some B
  ∧ _uid A.1 ≠ _uid B.1
  ∧ A.2 = ["specs1"; "todo"] ∧ B.2 = ["specs2"; "todo"]
  ∧ owns_endpoint B.1 (Api_endpoint B.1 "todo") = true
  ∧ _has_fr_route B.1
      (Some {| path := "/a/todo"; method := "GET"; accept_mimetypes := [];
               app := Some two_api_app |}) = Ok true
  ∧ ¬ ownership_sets_disjoint.
Proof.
  assert (HA : register_all two_apis.1 (register_todo ["/a/todo"])
               = Some (registered two_apis.1 (register_todo ["/a/todo"])))
    by (vm_compute; reflexivity).
  assert (HB : register_all two_apis.2 (register_todo_b ["/b/todo"])
               = Some (registered two_apis.2 (register_todo_b ["/b/todo"])))
    by (vm_compute; reflexivity).
  assert (Howns : owns_endpoint (registered two_apis.2 (register_todo_b ["/b/todo"])).1
                    (Api_endpoint (registered two_apis.2 (register_todo_b ["/b/todo"])).1
                       "todo") = true)
    by (vm_compute; reflexivity).
  cbv zeta. repeat (split; [first [exact HA | exact HB | vm_compute; congruence
                                  | vm_compute; reflexivity] |]).
  intros Hclaim.
  specialize (Hclaim two_apis.1 two_apis.2 _ _ _ _ _ _ "todo"
                eq_refl eq_refl ltac:(vm_compute; congruence)
                (eq_trans HA (f_equal Some (surjective_pairing _)))
                (eq_trans HB (f_equal Some (surjective_pairing _)))).
  rewrite Howns in Hclaim. discriminate Hclaim.
  vm_compute. set_solver.
Qed.

(** C3 (amended): each instance keeps its own ownership set, fed only by its
    own registrations, and the membership test strips the blueprint prefix; so
    for instances A and B with their registrations, an endpoint identifier
    registered under A is claimed by B's error router exactly when B itself
    registered an endpoint of the same name. The sets of two instances need
    not be disjoint. *)
Theorem owns_endpoint_iff_own_registration A0 B0 opsA opsB A B addedA addedB endpoint :
  endpoints A0 = ∅ → endpoints B0 = ∅ →
  register_all A0 opsA = Some (A, addedA) →
  register_all B0 opsB = Some (B, addedB) →
  endpoint ∈ addedA →
  owns_endpoint A (Api_endpoint A endpoint) = true
  ∧ (owns_endpoint B (Api_endpoint B endpoint) = true ↔ endpoint ∈ addedB).
Proof.
  intros HA0 HB0 HA HB Hin.
  destruct (register_all_endpoints A0 opsA) as (A' & addedA' & HA' & HepsA & _).
  destruct (register_all_endpoints B0 opsB) as (B' & addedB' & HB' & HepsB & _).
  rewrite HA in HA'. injection HA' as <- <-.
  rewrite HB in HB'. injection HB' as <- <-.
  rewrite !owns_endpoint_Api_endpoint, HepsA, HepsB, HA0, HB0. set_solver.
Qed.

Lemma owns_endpoint_iff_own_registration_witness :
  owns_endpoint (registered two_apis.1 (register_todo ["/a/todo"])).1
    (Api_endpoint (registered two_apis.1 (register_todo ["/a/todo"])).1 "todo") = true
  ∧ (owns_endpoint (registered two_apis.2 [InitApp]).1
       (Api_endpoint (registered two_apis.2 [InitApp]).1 "todo") = true
     ↔ "todo" ∈ (registered two_apis.2 [InitApp]).2).
Proof.
  apply (owns_endpoint_iff_own_registration
           two_apis.1 two_apis.2 (register_todo ["/a/todo"]) [InitApp]
           (registered two_apis.1 (register_todo ["/a/todo"])).1
           (registered two_apis.2 [InitApp]).1
           (registered two_apis.1 (register_todo ["/a/todo"])).2
           (registered two_apis.2 [InitApp]).2 "todo").
  - reflexivity.
  - reflexivity.
  - vm_compute. reflexivity.
  - vm_compute. reflexivity.
  - vm_compute. set_solver.
Defined.

(** ** [ApiErrorHandler.response] *)

(** What [response] does in general once [handle_error] has failed on an
    owned request: the failure is caught, and the fall-through statement
    raises [UnboundLocalError] instead of calling the original handler. *)
Lemma response_after_handle_error_raises self request e e' :
  _has_fr_route (api self) request = Ok true →
  handle_error (api self) request e = Raise e' →
  isinstance e' "Exception" = true →
  response self request e = Raise UnboundLocalError.
Proof.
  intros Hown Hraise Hexc. unfold response.
  rewrite Hown. simpl. by rewrite Hraise, Hexc.
Qed.

(** C4 (the code at the failing input): a [TeapotError] raised in the owned
    route [/todo], whose registered handler raises [ValueError]. The router
    claims the error, [handle_error] fails with the handler's exception, and
    [response] raises [UnboundLocalError]: the original handler does not
    produce the response. *)
Theorem response_after_failing_handler :
  let request := Some (todo_request [("application/json", 1000%N)]) in
  _has_fr_route (api failing_handler_router) request = Ok true
  ∧ handle_error (api failing_handler_router) request teapot_error
    = Raise (builtin_error "ValueError" "boom")
  ∧ response failing_handler_router request teapot_error = Raise UnboundLocalError
  ∧ response failing_handler_router request teapot_error
    ≠ original_handler failing_handler_router request teapot_error.
Proof.
  cbv zeta.
  assert (Hown : _has_fr_route (api failing_handler_router)
                   (Some (todo_request [("application/json", 1000%N)])) = Ok true)
    by (vm_compute; reflexivity).
  assert (Hraise : handle_error (api failing_handler_router)
                     (Some (todo_request [("application/json", 1000%N)])) teapot_error
                   = Raise (builtin_error "ValueError" "boom"))
    by (vm_compute; reflexivity).
  split; [exact Hown |]. split; [exact Hraise |].
  rewrite (response_after_handle_error_raises _ _ _ _ Hown Hraise eq_refl).
  split; [reflexivity | discriminate].
Qed.

(** ** Probing the router *)

Lemma scan_routes_no_match method url routes route route_found :
  (∀ r, r ∈ routes → pattern r url = false) →
  ∃ route', scan_routes method url routes route route_found = inr (route', route_found).
Proof.
  revert route. induction routes as [|r routes IH]; intros route Hall; simpl.
  - by eexists.
  - rewrite (Hall r) by left. rewrite orb_false_r. simpl.
    apply IH. intros r' Hr'. apply Hall. by right.
Qed.

(** A path that matches no route makes the probe raise [NotFound]. *)
Lemma _dummy_router_get_not_found router method request :
  no_route_matches router (path request) →
  _dummy_router_get router method request
  = Raise (NotFound ("Requested URL " +:+ path request +:+ " not found")).
Proof.
  intros (Hstatic & Hdyn & Halways). unfold _dummy_router_get. rewrite Hstatic.
  destruct (scan_routes_no_match method (path request) _ None false Hdyn)
    as [route1 ->].
  by destruct (scan_routes_no_match method (path request) _ route1 false Halways)
    as [route2 ->].
Qed.

(** ** Rendering through faithful representations *)

Lemma text_passes_on : passes_on text.
Proof. intros request data code hdrs. by repeat split. Qed.

Lemma output_json_passes_on : passes_on output_json.
Proof. intros request data code hdrs. by repeat split. Qed.

(** A response of [make_response] has the status and data it was given, the
    negotiated [Content-Type], and every other header it was given. *)
Lemma make_response_Ok self request data code hdrs fallback resp :
  faithful_representations self →
  make_response self request data code hdrs fallback = Ok resp →
  status resp = code
  ∧ body_data (body resp) = Some data
  ∧ best_match_accept_mimetype request (representations self)
      (py_or fallback (default_mediatype self))
    = headers resp !! "Content-Type"
  ∧ ∀ k v, k ≠ "Content-Type" → hdrs !! k = Some v → headers resp !! k = Some v.
Proof.
  intros Hfaith. rewrite make_response_unfold.
  destruct (best_match_accept_mimetype _ _ _) as [m|]; [| done].
  assert (Hset : ∀ f, passes_on f →
            Ok (set_header "Content-Type" m (f request data code hdrs)) = Ok resp →
            status resp = code ∧ body_data (body resp) = Some data
            ∧ Some m = headers resp !! "Content-Type"
            ∧ ∀ k v, k ≠ "Content-Type" → hdrs !! k = Some v →
                     headers resp !! k = Some v).
  { intros f Hf [= <-]. destruct (Hf request data code hdrs) as (Hs & Hb & Hh).
    simpl. repeat split; [done | done | by rewrite lookup_insert_eq |].
    intros k v Hk Hkv. rewrite lookup_insert_ne by done.
    by eapply lookup_weaken. }
  destruct (odict_get m (representations self)) as [f|] eqn:Hf.
  - apply Hset. by eapply Hfaith.
  - case_decide as Hm; [| done]. subst m. apply Hset, text_passes_on.
Qed.

(** ** Unmatched routes *)

Lemma _has_fr_route_unmatched self request app0 :
  app request = Some app0 →
  no_route_matches (router app0) (path request) →
  _has_fr_route self (Some request) = Ok (catch_all_404s self).
Proof.
  intros Happ Hno. unfold _has_fr_route, _should_use_fr_error_handler.
  rewrite Happ, (_dummy_router_get_not_found _ _ _ Hno). simpl.
  by destruct (catch_all_404s self).
Qed.

(** ** [handle_error]: equations *)

Lemma bind_Ok {A B} (a : A) (f : A → result B) : Ok a ≫= f = f a.
Proof. reflexivity. Qed.

Lemma bind_ret {A} (m : result A) : m ≫= Ok = m.
Proof. by destruct m. Qed.

Lemma handle_error_unfold self request app0 e :
  app request = Some app0 →
  handle_error self (Some request) e
  = resolve_error self e ≫= finish_error self request app0 e.
Proof. intros Happ. unfold handle_error. by rewrite Happ. Qed.

Lemma remove_blacklisted_eq hdrs :
  remove_blacklisted hdrs = delete "Content-Length" hdrs.
Proof. reflexivity. Qed.

(** Server errors are rendered without a fallback media type. *)
Lemma finish_error_5xx self request app0 e dd code hdrs :
  500 ≤ code →
  finish_error self request app0 e (dd, code, hdrs)
  = make_response self request (error_data e dd) code (remove_blacklisted hdrs) None.
Proof.
  intros Hcode. unfold finish_error. cbv beta iota zeta.
  rewrite (bool_decide_eq_true_2 (500 ≤ code)) by done.
  rewrite bind_Ok. cbv beta iota zeta.
  rewrite (bool_decide_eq_false_2 (code = 401)) by lia.
  apply bind_ret.
Qed.

(** A 404 with the help enabled never gets as far as rendering. *)
Lemma finish_error_404_help self request app0 e dd hdrs :
  default true (config app0 !! "ERROR_404_HELP") = true →
  ∃ err, finish_error self request app0 e (dd, 404, hdrs) = Raise err.
Proof.
  intros Hhelp. unfold finish_error. cbv beta iota zeta.
  rewrite (bool_decide_eq_false_2 (500 ≤ 404)) by lia.
  rewrite (bool_decide_eq_true_2 (404 = 404)) by done.
  rewrite Hhelp. cbv beta iota zeta delta [andb].
  destruct (default _ (exc_data e)); by eexists.
Qed.

(** A 406 of an Api without default media type is rendered with the first
    registered media type, or [text/plain], as fallback. *)
Lemma finish_error_406 self request app0 e dd hdrs :
  default_mediatype self = None →
  finish_error self request app0 e (dd, 406, hdrs)
  = make_response self request (error_data e dd) 406 (remove_blacklisted hdrs)
      (Some (default "text/plain" (head (odict_keys (representations self))))).
Proof.
  intros Hnone. unfold finish_error. cbv beta iota zeta.
  rewrite (bool_decide_eq_false_2 (500 ≤ 406)) by lia.
  rewrite (bool_decide_eq_false_2 (406 = 404)) by lia.
  rewrite (bool_decide_eq_true_2 (406 = 406)) by done.
  rewrite (bool_decide_eq_true_2 (default_mediatype self = None)) by done.
  cbv beta iota zeta delta [andb]. rewrite bind_Ok. cbv beta iota zeta.
  rewrite (bool_decide_eq_false_2 (406 = 401)) by lia.
  apply bind_ret.
Qed.

(** Any other client error is rendered without a fallback media type. *)
Lemma finish_error_plain self request app0 e dd code hdrs :
  code < 500 → code ≠ 401 →
  code ≠ 406 ∨ default_mediatype self ≠ None →
  code ≠ 404 ∨ config app0 !! "ERROR_404_HELP" = Some false →
  finish_error self request app0 e (dd, code, hdrs)
  = make_response self request (error_data e dd) code (remove_blacklisted hdrs) None.
Proof.
  intros H500 H401 H406 H404. unfold finish_error. cbv beta iota zeta.
  rewrite (bool_decide_eq_false_2 (500 ≤ code)) by lia.
  replace (bool_decide (code = 406) && bool_decide (default_mediatype self = None))
    with false.
  replace (bool_decide (code = 404) && default true (config app0 !! "ERROR_404_HELP"))
    with false.
  - cbv beta iota zeta delta [andb]. rewrite bind_Ok. cbv beta iota zeta.
    rewrite (bool_decide_eq_false_2 (code = 401)) by done.
    apply bind_ret.
  - destruct H404 as [H404 | ->].
    + by rewrite (bool_decide_eq_false_2 (code = 404)).
    + by rewrite andb_false_r.
  - destruct H406 as [H406 | H406].
    + by rewrite (bool_decide_eq_false_2 (code = 406)).
    + by rewrite (bool_decide_eq_false_2 (default_mediatype self = None)), andb_false_r.
Qed.

(** Whenever [finish_error] returns a response, it is [make_response]'s
    rendering of the error body, with the resolved code and the headers minus
    the blacklisted ones. *)
Lemma finish_error_Ok self request app0 e dd code hdrs resp :
  finish_error self request app0 e (dd, code, hdrs) = Ok resp →
  ∃ fallback,
    make_response self request (error_data e dd) code (remove_blacklisted hdrs)
      fallback = Ok resp.
Proof.
  destruct (decide (500 ≤ code)) as [H500|H500].
  { rewrite finish_error_5xx by done. eauto. }
  destruct (decide (code = 406)) as [->|H406].
  { destruct (default_mediatype self) eqn:Hd.
    - rewrite finish_error_plain; [eauto | lia | lia | | by left].
      right. by rewrite Hd.
    - rewrite finish_error_406 by done. eauto. }
  destruct (decide (code = 404 ∧ default true (config app0 !! "ERROR_404_HELP") = true))
    as [[-> Hhelp]|H404].
  { destruct (finish_error_404_help self request app0 e dd hdrs Hhelp) as [err ->].
    done. }
  destruct (decide (code = 401)) as [->|H401].
  - unfold finish_error. cbv beta iota zeta.
    rewrite (bool_decide_eq_false_2 (500 ≤ 401)) by lia.
    rewrite (bool_decide_eq_false_2 (401 = 404)) by lia.
    rewrite (bool_decide_eq_false_2 (401 = 406)) by lia.
    cbv beta iota zeta delta [andb]. rewrite bind_Ok. cbv beta iota zeta.
    rewrite (bool_decide_eq_true_2 (401 = 401)) by done.
    fold (error_data e dd).
    destruct (make_response _ _ _ _ _ _) as [resp'|] eqn:Hresp; [| done].
    rewrite bind_Ok. unfold unauthorized.
    destruct (serve_challenge_on_401 self); [done |]. intros [= <-]. eauto.
  - rewrite finish_error_plain; [eauto | lia | done | by left |].
    destruct (decide (code = 404)) as [->|]; [right | by left].
    destruct (config app0 !! "ERROR_404_HELP") as [[]|] eqn:Hcfg; [| done |];
      exfalso; apply H404; by rewrite ?Hcfg.
Qed.

Lemma resolve_error_not_found self msg :
  error_handlers self !! "NotFound" = None →
  resolve_error self (NotFound msg)
  = Ok ({[ "message" := PStr "Not Found" ]}, 404, ∅).
Proof.
  intros Hnone. unfold resolve_error.
  change (exc_class (NotFound msg)) with "NotFound". rewrite Hnone.
  vm_compute. reflexivity.
Qed.

(** [handle_error] on sanic's [NotFound] when the 404 help is switched off and
    no handler is registered for it. *)
Lemma handle_error_not_found self request app0 msg :
  app request = Some app0 →
  config app0 !! "ERROR_404_HELP" = Some false →
  error_handlers self !! "NotFound" = None →
  handle_error self (Some request) (NotFound msg)
  = make_response self request (PyDict {[ "message" := PStr "Not Found" ]}) 404 ∅ None.
Proof.
  intros Happ Hhelp Hnone.
  rewrite (handle_error_unfold _ _ _ _ Happ), (resolve_error_not_found _ _ Hnone).
  rewrite bind_Ok, finish_error_plain; [| lia | lia | left; lia | by right].
  unfold error_data. change (exc_data (NotFound msg)) with (@None pydata).
  rewrite lookup_singleton_eq, remove_blacklisted_eq, delete_empty.
  cbv beta iota delta [default from_option id]. by rewrite insert_singleton_eq.
Qed.

Lemma default_representations_faithful self :
  representations self = DEFAULT_REPRESENTATIONS → faithful_representations self.
Proof.
  intros Hreps m f. rewrite Hreps. simpl. case_decide; [| done].
  intros [= <-]. apply output_json_passes_on.
Qed.

Lemma nowhere_matches_no_route : no_route_matches example_router "/nowhere".
Proof.
  split; [by vm_compute |].
  split; intros route Hin; vm_compute in Hin; inversion Hin.
Qed.

(** C5, as worded, fails: with [catch_all_404s=True] and the application's
    default configuration the Api claims the unmatched request, but
    [handle_error] raises [NotImplementedError] from [_help_on_404], and
    [response] returns no response at all. *)
Lemma catch_all_404_gives_no_response :
  let request := nowhere_request example_app in
  let e := NotFound "Requested URL /nowhere not found" in
  no_route_matches (router example_app) (path request)
  ∧ catch_all_404s (api catch_all_router) = true
  ∧ _has_fr_route (api catch_all_router) (Some request) = Ok true
  ∧ handle_error (api catch_all_router) (Some request) e
    = Raise (NotImplementedError "Help on 404 is not yet implemented for Sanic-RestPlus")
  ∧ ∀ resp, response catch_all_router (Some request) e ≠ Ok resp.
Proof.
  cbv zeta. split; [exact nowhere_matches_no_route |].
  split; [reflexivity |].
  assert (Hown : _has_fr_route (api catch_all_router)
                   (Some (nowhere_request example_app)) = Ok true)
    by (vm_compute; reflexivity).
  assert (Hraise : handle_error (api catch_all_router)
                     (Some (nowhere_request example_app))
                     (NotFound "Requested URL /nowhere not found")
                   = Raise (NotImplementedError
                              "Help on 404 is not yet implemented for Sanic-RestPlus"))
    by (vm_compute; reflexivity).
  split; [exact Hown |]. split; [exact Hraise |].
  intros resp.
  by rewrite (response_after_handle_error_raises _ _ _ _ Hown Hraise eq_refl).
Qed.

(** C5 (amended): for a request whose path matches no registered route the
    Api claims the error exactly when [catch_all_404s] is true. With the flag
    false it declines and the original handler produces the response. With
    the flag true, the 404 help switched off in the application's
    configuration and no handler registered for [NotFound], the response is
    the rendering of [{"message": "Not Found"}] with status 404 whenever
    negotiation yields one. (With the help on, its default, [handle_error]
    raises [NotImplementedError].) *)
Theorem unmatched_route_handling (self : ApiErrorHandler) request app0 :
  app request = Some app0 →
  no_route_matches (router app0) (path request) →
  _has_fr_route (api self) (Some request) = Ok (catch_all_404s (api self))
  ∧ (catch_all_404s (api self) = false →
       ∀ e, response self (Some request) e = original_handler self (Some request) e)
  ∧ (catch_all_404s (api self) = true →
     config app0 !! "ERROR_404_HELP" = Some false →
     error_handlers (api self) !! "NotFound" = None →
     faithful_representations (api self) →
     ∀ msg resp,
       make_response (api self) request
         (PyDict {[ "message" := PStr "Not Found" ]}) 404 ∅ None = Ok resp →
       response self (Some request) (NotFound msg) = Ok resp
       ∧ status resp = 404
       ∧ body_data (body resp) = Some (PyDict {[ "message" := PStr "Not Found" ]})).
Proof.
  intros Happ Hno.
  pose proof (_has_fr_route_unmatched (api self) request app0 Happ Hno) as Hown.
  split; [done |]. split.
  - intros Hflag e. unfold response. by rewrite Hown, Hflag.
  - intros Hflag Hhelp Hnone Hfaith msg resp Hresp.
    split.
    + unfold response. rewrite Hown, Hflag. simpl.
      by rewrite (handle_error_not_found _ _ _ msg Happ Hhelp Hnone), Hresp.
    + by destruct (make_response_Ok _ _ _ _ _ _ _ Hfaith Hresp) as (? & ? & _).
Qed.

Lemma unmatched_route_handling_witness :
  let request := nowhere_request no_help_app in
  let resp := {| status := 404;
                 headers := {[ "Content-Type" := "application/json" ]};
                 body := JsonBody (PyDict {[ "message" := PStr "Not Found" ]}) |} in
  _has_fr_route (api catch_all_router) (Some request) = Ok true
  ∧ response catch_all_router (Some request)
      (NotFound "Requested URL /nowhere not found") = Ok resp
  ∧ status resp = 404
  ∧ body_data (body resp) = Some (PyDict {[ "message" := PStr "Not Found" ]}).
Proof.
  cbv zeta.
  destruct (unmatched_route_handling catch_all_router
              (nowhere_request no_help_app) no_help_app eq_refl
              nowhere_matches_no_route) as (Hown & _ & Hcatch).
  split; [exact Hown |].
  apply (Hcatch eq_refl).
  - reflexivity.
  - vm_compute. reflexivity.
  - apply default_representations_faithful. reflexivity.
  - vm_compute. reflexivity.
Defined.

(** ** The output wrapper *)

Lemma output_raw self resource request r :
  resource request = Ok (ViewRaw r) →
  output self resource request
  = make_response self request (unpack r 200).1.1 (unpack r 200).1.2
      (unpack r 200).2 None.
Proof.
  intros Hres. unfold output. rewrite Hres, bind_Ok.
  by destruct (unpack r 200) as [[data code] hdrs].
Qed.

(** C6, as worded, fails: a supplied [Content-Type] header is replaced by the
    negotiated media type, so the response headers do not contain the supplied
    ones; and with no usable media type (here [default_mediatype=None] and
    [Accept: text/html]) the wrapper raises 406 instead of producing a
    response with the supplied code. *)
Lemma output_replaces_content_type :
  let request := todo_request [("application/json", 1000%N)] in
  output default_api csv_resource request
  = Ok {| status := 200;
          headers := {[ "Content-Type" := "application/json"; "X-Total" := "1" ]};
          body := JsonBody (PyDict {[ "id" := PInt 1 ]}) |}
  ∧ output (todo_api None false) created_resource (todo_request [("text/html", 1000%N)])
    = Raise (SanicException "Not Acceptable" (Some 406))
  ∧ ¬ output_round_trip.
Proof.
  cbv zeta.
  assert (Hout : output default_api csv_resource
                   (todo_request [("application/json", 1000%N)])
                 = Ok {| status := 200;
                         headers := {[ "Content-Type" := "application/json";
                                       "X-Total" := "1" ]};
                         body := JsonBody (PyDict {[ "id" := PInt 1 ]}) |})
    by (vm_compute; reflexivity).
  split; [exact Hout |]. split; [vm_compute; reflexivity |].
  intros Hclaim.
  destruct (Hclaim default_api csv_resource
              (todo_request [("application/json", 1000%N)]) _
              (default_representations_faithful default_api eq_refl) eq_refl)
    as (resp & Hresp & _ & Hsub).
  rewrite Hout in Hresp. injection Hresp as <-.
  assert (Hct : filter (λ kv : string * string, kv.1 ∉ HEADERS_BLACKLIST)
                  ({[ "Content-Type" := "text/csv"; "X-Total" := "1" ]}
                     : gmap string string) !! "Content-Type" = Some "text/csv").
  { apply map_lookup_filter_Some. split; [by vm_compute |].
    simpl. unfold HEADERS_BLACKLIST. intros Hin.
    apply list_elem_of_singleton in Hin. discriminate Hin. }
  eapply lookup_weaken in Hct; [| exact Hsub].
  vm_compute in Hct. discriminate Hct.
Qed.

(** C6 (amended): for a raw return value [(body)], [(body, code)] or
    [(body, code, headers)] the wrapper calls [make_response] with the body,
    the supplied code (200 when absent) and the supplied headers (empty when
    absent; none is stripped). It produces a response exactly when negotiation
    yields a registered media type or [text/plain]; through representations
    that pass on what they are given, that response has the supplied status
    and body, every supplied header other than [Content-Type], and the
    negotiated media type as [Content-Type]. *)
Theorem output_renders_raw_return self resource request r :
  faithful_representations self →
  resource request = Ok (ViewRaw r) →
  (unpack r 200).1.2 = match r with Ret1 _ => 200 | Ret2 _ c | Ret3 _ c _ => c end
  ∧ (unpack r 200).2 = match r with Ret1 _ | Ret2 _ _ => ∅ | Ret3 _ _ h => h end
  ∧ ((∃ resp, output self resource request = Ok resp) ↔
     ∃ m, best_match_accept_mimetype request (representations self)
            (default_mediatype self) = Some m
          ∧ (m ∈ odict_keys (representations self) ∨ m = "text/plain"))
  ∧ ∀ resp,
      output self resource request = Ok resp →
      status resp = (unpack r 200).1.2
      ∧ body_data (body resp) = Some (unpack r 200).1.1
      ∧ best_match_accept_mimetype request (representations self)
          (default_mediatype self) = headers resp !! "Content-Type"
      ∧ ∀ k v, k ≠ "Content-Type" → (unpack r 200).2 !! k = Some v →
               headers resp !! k = Some v.
Proof.
  intros Hfaith Hres. rewrite (output_raw _ _ _ _ Hres).
  split; [by destruct r |]. split; [by destruct r |]. split.
  - rewrite make_response_unfold.
    change (py_or None (default_mediatype self)) with (default_mediatype self).
    destruct (best_match_accept_mimetype _ _ _) as [m|]; [| split].
    + destruct (odict_get m (representations self)) as [f|] eqn:Hf.
      * split; [intros _ | eauto]. exists m. split; [done | left].
        apply odict_get_Some. by rewrite Hf.
      * apply odict_get_None in Hf. case_decide as Hm.
        -- split; [intros _ | eauto]. exists m. split; [done | by right].
        -- split; [by intros [? ?] |]. intros (m' & [= <-] & [?|?]); done.
    + by intros [? ?].
    + by intros (? & ? & _).
  - intros resp Hresp.
    apply (make_response_Ok _ _ _ _ _ _ _ Hfaith Hresp).
Qed.

Lemma output_renders_raw_return_witness :
  ∃ resp,
    output default_api csv_resource (todo_request [("application/json", 1000%N)])
    = Ok resp
    ∧ status resp = 200
    ∧ headers resp !! "Content-Type" = Some "application/json"
    ∧ headers resp !! "X-Total" = Some "1".
Proof.
  destruct (output_renders_raw_return default_api csv_resource
              (todo_request [("application/json", 1000%N)]) _
              (default_representations_faithful default_api eq_refl) eq_refl)
    as (_ & _ & Hex & Hresp).
  destruct (proj2 Hex) as [resp Hout].
  { exists "application/json". split; [vm_compute; reflexivity |].
    left. vm_compute. left. }
  exists resp. destruct (Hresp resp Hout) as (Hstatus & _ & Hct & Hhdrs).
  split; [exact Hout |]. split; [exact Hstatus |]. split.
  - rewrite <- Hct. vm_compute. reflexivity.
  - apply Hhdrs; [discriminate |]. vm_compute. reflexivity.
Defined.

(** ** The 405 probe *)





(** ** The error body *)

Lemma resolve_error_generic self e :
  error_handlers self !! exc_class e = None →
  isinstance e "SanicException" = false →
  _default_error_handler self = None →
  resolve_error self e = Ok ({[ "message" := PStr "Internal Server Error" ]}, 500, ∅).
Proof. intros Hh Hs Hd. unfold resolve_error. by rewrite Hh, Hs, Hd. Qed.

(** C8, as worded, fails: an unregistered, non-HTTP error that carries a
    [data] attribute is answered with status 500 and that data as the body,
    not with [{"message": "Internal Server Error"}]. *)
Lemma unknown_error_with_data_body :
  handle_error default_api (Some (todo_request [("application/json", 1000%N)]))
    validation_error
  = Ok {| status := 500;
          headers := {[ "Content-Type" := "application/json" ]};
          body := JsonBody (PyDict {[ "errors" := PStr "name is required" ]}) |}
  ∧ ¬ unknown_error_is_generic_500.
Proof.
  assert (Hcode : handle_error default_api
                    (Some (todo_request [("application/json", 1000%N)]))
                    validation_error
                  = Ok {| status := 500;
                          headers := {[ "Content-Type" := "application/json" ]};
                          body := JsonBody
                                    (PyDict {[ "errors" := PStr "name is required" ]}) |})
    by (vm_compute; reflexivity).
  split; [exact Hcode |]. intros Hclaim.
  destruct (Hclaim default_api (todo_request [("application/json", 1000%N)])
              example_app validation_error eq_refl
              ltac:(vm_compute; reflexivity) eq_refl eq_refl
              (default_representations_faithful default_api eq_refl))
    as (resp & Hresp & _ & Hbody).
  rewrite Hcode in Hresp. injection Hresp as <-.
  vm_compute in Hbody. discriminate Hbody.
Qed.

(** C8 (amended): for every raised exception whose type has no entry in the
    handler registry, that is not a framework HTTP error, that carries no
    [data] attribute, and with no default handler registered, [handle_error]
    renders the body [{"message": "Internal Server Error"}] with status 500
    and no headers through [make_response]; the response it produces (when
    negotiation yields one) has that status and that body. *)
Theorem handle_error_generic_500 self request app0 e :
  app request = Some app0 →
  error_handlers self !! exc_class e = None →
  isinstance e "SanicException" = false →
  _default_error_handler self = None →
  exc_data e = None →
  faithful_representations self →
  handle_error self (Some request) e
  = make_response self request
      (PyDict {[ "message" := PStr "Internal Server Error" ]}) 500 ∅ None
  ∧ ∀ resp,
      handle_error self (Some request) e = Ok resp →
      status resp = 500
      ∧ body_data (body resp)
        = Some (PyDict {[ "message" := PStr "Internal Server Error" ]}).
Proof.
  intros Happ Hh Hs Hd Hdata Hfaith.
  assert (Heq : handle_error self (Some request) e
          = make_response self request
              (PyDict {[ "message" := PStr "Internal Server Error" ]}) 500 ∅ None).
  { rewrite (handle_error_unfold _ _ _ _ Happ), (resolve_error_generic _ _ Hh Hs Hd).
    rewrite bind_Ok, finish_error_5xx by lia.
    unfold error_data. rewrite Hdata, lookup_singleton_eq.
    rewrite remove_blacklisted_eq, delete_empty.
    cbv beta iota delta [default from_option id]. by rewrite insert_singleton_eq. }
  split; [done |]. intros resp Hresp. rewrite Heq in Hresp.
  by destruct (make_response_Ok _ _ _ _ _ _ _ Hfaith Hresp) as (? & ? & _).
Qed.

Lemma handle_error_generic_500_witness :
  handle_error default_api (Some (todo_request [("application/json", 1000%N)]))
    runtime_error
  = make_response default_api (todo_request [("application/json", 1000%N)])
      (PyDict {[ "message" := PStr "Internal Server Error" ]}) 500 ∅ None
  ∧ ∀ resp,
      handle_error default_api (Some (todo_request [("application/json", 1000%N)]))
        runtime_error = Ok resp →
      status resp = 500
      ∧ body_data (body resp)
        = Some (PyDict {[ "message" := PStr "Internal Server Error" ]}).
Proof.
  apply (handle_error_generic_500 default_api
           (todo_request [("application/json", 1000%N)]) example_app runtime_error).
  - reflexivity.
  - vm_compute. reflexivity.
  - reflexivity.
  - reflexivity.
  - reflexivity.
  - apply default_representations_faithful. reflexivity.
Defined.

(** C9, as worded, fails: when the error carries a [data] attribute, that
    attribute is the whole body: the resolved body and its [message] are
    dropped. Here the registered handler answers
    [{"message": "Invalid input"}] with 400 and the error's data is
    [{"errors": ...}]; the body has no [message] field. *)
Lemma error_data_replaces_message :
  handle_error validating_api (Some (todo_request [("application/json", 1000%N)]))
    validation_error
  = Ok {| status := 400;
          headers := {[ "Content-Type" := "application/json" ]};
          body := JsonBody (PyDict {[ "errors" := PStr "name is required" ]}) |}
  ∧ ¬ error_body_has_message.
Proof.
  assert (Hcode : handle_error validating_api
                    (Some (todo_request [("application/json", 1000%N)]))
                    validation_error
                  = Ok {| status := 400;
                          headers := {[ "Content-Type" := "application/json" ]};
                          body := JsonBody
                                    (PyDict {[ "errors" := PStr "name is required" ]}) |})
    by (vm_compute; reflexivity).
  split; [exact Hcode |]. intros Hclaim.
  destruct (Hclaim validating_api (todo_request [("application/json", 1000%N)])
              validation_error _
              (default_representations_faithful validating_api eq_refl) Hcode)
    as (d & Hbody & [s Hmsg] & _).
  injection Hbody as <-. vm_compute in Hmsg. discriminate Hmsg.
Qed.

(** The message of a framework error with a status code sanic has no reason
    phrase for is [None], not a string. *)
Lemma unknown_status_message_is_none :
  resolve_error default_api (SanicException "odd" (Some 599))
  = Ok ({[ "message" := PNone ]}, 599, ∅).
Proof. vm_compute. reflexivity. Qed.

(** C9 (amended): whenever [handle_error] answers, the response has the
    resolved status code and its body is: for an error without [data]
    attribute, the resolved body with a [message] field (the resolved message,
    or [str(e)] when the resolved body has none); for an error with a [data]
    attribute, exactly that attribute's value, with a [message] field only if
    the data has one. *)
Theorem handle_error_body self request e resp :
  faithful_representations self →
  handle_error self (Some request) e = Ok resp →
  ∃ dd code hdrs,
    resolve_error self e = Ok (dd, code, hdrs)
    ∧ status resp = code
    ∧ body_data (body resp) = Some (error_data e dd)
    ∧ match exc_data e with
      | None =>
          ∃ d, error_data e dd = PyDict d
               ∧ d !! "message" = Some (default (PStr (exc_str e)) (dd !! "message"))
               ∧ ∀ k, k ≠ "message" → d !! k = dd !! k
      | Some data => error_data e dd = data
      end.
Proof.
  intros Hfaith Hresp.
  destruct (app request) as [app0|] eqn:Happ;
    [| by unfold handle_error in Hresp; rewrite Happ in Hresp].
  rewrite (handle_error_unfold _ _ _ _ Happ) in Hresp.
  destruct (resolve_error self e) as [[[dd code] hdrs]|] eqn:Hres; [| done].
  rewrite bind_Ok in Hresp.
  apply finish_error_Ok in Hresp as [fallback Hresp].
  destruct (make_response_Ok _ _ _ _ _ _ _ Hfaith Hresp) as (Hstatus & Hbody & _).
  exists dd, code, hdrs. repeat split; try done.
  unfold error_data. destruct (exc_data e) as [data|]; [done |].
  eexists. split; [done |]. split; [by rewrite lookup_insert_eq |].
  intros k Hk. by rewrite lookup_insert_ne.
Qed.

Lemma handle_error_body_witness :
  ∃ dd code hdrs,
    resolve_error default_api runtime_error = Ok (dd, code, hdrs)
    ∧ status {| status := 500;
                headers := {[ "Content-Type" := "application/json" ]};
                body := JsonBody
                          (PyDict {[ "message" := PStr "Internal Server Error" ]}) |}
      = code
    ∧ body_data (JsonBody (PyDict {[ "message" := PStr "Internal Server Error" ]}))
      = Some (error_data runtime_error dd)
    ∧ ∃ d, error_data runtime_error dd = PyDict d
           ∧ d !! "message"
             = Some (default (PStr (exc_str runtime_error)) (dd !! "message"))
           ∧ ∀ k, k ≠ "message" → d !! k = dd !! k.
Proof.
  apply (handle_error_body default_api
           (todo_request [("application/json", 1000%N)]) runtime_error
           {| status := 500;
              headers := {[ "Content-Type" := "application/json" ]};
              body := JsonBody
                        (PyDict {[ "message" := PStr "Internal Server Error" ]}) |}).
  - apply default_representations_faithful. reflexivity.
  - vm_compute. reflexivity.
Defined.

(** ** Rendering a 406 *)

(** With a truthy fallback media type that is registered or [text/plain],
    [make_response] always produces a response. *)
Lemma make_response_with_fallback self request data code hdrs fallback :
  fallback ≠ "" →
  fallback ∈ odict_keys (representations self) ∨ fallback = "text/plain" →
  ∃ resp, make_response self request data code hdrs (Some fallback) = Ok resp.
Proof.
  intros Hne Hfb. rewrite make_response_unfold.
  replace (py_or (Some fallback) (default_mediatype self)) with (Some fallback)
    by (unfold py_or; by rewrite decide_False).
  destruct (best_match_accept_mimetype _ _ _) as [m|] eqn:Hbm.
  - assert (Hm : m ∈ odict_keys (representations self) ∨ m = "text/plain").
    { apply best_match_registered_or_default in Hbm as [Hin | [= <-]]; [by left | done]. }
    destruct (odict_get m (representations self)) as [f|] eqn:Hf; [by eexists |].
    apply odict_get_None in Hf. destruct Hm as [Hin | ->]; [done |].
    rewrite decide_True by done. by eexists.
  - unfold best_match_accept_mimetype in Hbm.
    destruct (first_match _ _); [done |]. by rewrite decide_True in Hbm.
Qed.

(** C10: when the resolved status code is 406 and the Api has no default
    media type, [handle_error] passes the first registered media type, or
    [text/plain] when none is registered, to [make_response] as the fallback
    media type, and with it the rendering of the 406 does not fail: a response
    is produced. (Media types are non-empty strings.) *)
Theorem handle_error_406_fallback self request app0 e dd hdrs :
  app request = Some app0 →
  resolve_error self e = Ok (dd, 406, hdrs) →
  default_mediatype self = None →
  head (odict_keys (representations self)) ≠ Some "" →
  handle_error self (Some request) e
  = make_response self request (error_data e dd) 406 (remove_blacklisted hdrs)
      (Some (default "text/plain" (head (odict_keys (representations self)))))
  ∧ ∃ resp, handle_error self (Some request) e = Ok resp.
Proof.
  intros Happ Hres Hnone Hhead.
  assert (Heq : handle_error self (Some request) e
          = make_response self request (error_data e dd) 406 (remove_blacklisted hdrs)
              (Some (default "text/plain" (head (odict_keys (representations self)))))).
  { rewrite (handle_error_unfold _ _ _ _ Happ), Hres, bind_Ok.
    by apply finish_error_406. }
  split; [done |]. rewrite Heq.
  apply make_response_with_fallback.
  - destruct (odict_keys (representations self)) as [|k ks]; [done |].
    simpl in *. congruence.
  - destruct (odict_keys (representations self)) as [|k ks]; [by right |].
    left. simpl. left.
Qed.

Lemma handle_error_406_fallback_witness :
  handle_error (todo_api None false) (Some (todo_request [("text/html", 1000%N)]))
    (SanicException "Not Acceptable" (Some 406))
  = make_response (todo_api None false) (todo_request [("text/html", 1000%N)])
      (error_data (SanicException "Not Acceptable" (Some 406))
         {[ "message" := PStr "Not Acceptable" ]})
      406 (remove_blacklisted ∅) (Some "application/json")
  ∧ ∃ resp,
      handle_error (todo_api None false) (Some (todo_request [("text/html", 1000%N)]))
        (SanicException "Not Acceptable" (Some 406)) = Ok resp.
Proof.
  apply (handle_error_406_fallback (todo_api None false)
           (todo_request [("text/html", 1000%N)]) example_app
           (SanicException "Not Acceptable" (Some 406))
           {[ "message" := PStr "Not Acceptable" ]} ∅).
  - reflexivity.
  - vm_compute. reflexivity.
  - reflexivity.
  - discriminate.
Defined.

(** * Further properties *)

(** ** Default endpoints *)

Lemma default_endpoint_loop_Some fuel eps base suffix endpoint :
  default_endpoint_loop fuel eps base suffix = Some endpoint →
  ∃ n, (suffix ≤ n)%nat
       ∧ endpoint = base +:+ "_" +:+ pretty n
       ∧ endpoint ∉ eps
       ∧ ∀ j, (suffix ≤ j < n)%nat → base +:+ "_" +:+ pretty j ∈ eps.
Proof.
  revert suffix. induction fuel as [|fuel IH]; intros suffix; simpl; [done |].
  case_decide as Hin.
  - intros Hloop. destruct (IH _ Hloop) as (n & Hn & -> & Hfresh & Hbelow).
    exists n. split; [lia |]. split; [done |]. split; [done |].
    intros j Hj. destruct (decide (j = suffix)) as [->|]; [done |].
    apply Hbelow. lia.
  - intros [= <-]. exists suffix. split; [lia |]. split; [done |].
    split; [done |]. intros j Hj. lia.
Qed.

(** X1: [default_endpoint] always returns, and its name is free in the Api:
    it is the base name when that is free, and otherwise the base name with
    the smallest numeric suffix from 2 on that is free. *)
Theorem default_endpoint_smallest_free_suffix self resource namespace :
  ∃ endpoint,
    default_endpoint self resource namespace = Some endpoint
    ∧ endpoint ∉ endpoints self
    ∧ (endpoint_base self resource namespace ∉ endpoints self →
         endpoint = endpoint_base self resource namespace)
    ∧ (endpoint_base self resource namespace ∈ endpoints self →
         ∃ n, (2 ≤ n)%nat
              ∧ endpoint = endpoint_base self resource namespace +:+ "_" +:+ pretty n
              ∧ ∀ j, (2 ≤ j < n)%nat →
                     endpoint_base self resource namespace +:+ "_" +:+ pretty j
                     ∈ endpoints self).
Proof.
  unfold default_endpoint. fold (endpoint_base self resource namespace).
  set (base := endpoint_base self resource namespace).
  case_decide as Hin.
  - destruct (default_endpoint_loop_returns (endpoints self) base 2) as [ep Hep].
    destruct (default_endpoint_loop_Some _ _ _ _ _ Hep) as (n & Hn & Heq & Hfresh & Hbelow).
    exists ep. split; [done |]. split; [done |]. split; [done |].
    intros _. by exists n.
  - exists base. split; [done |]. split; [done |]. split; [done |]. done.
Qed.

Lemma register_resource_default self namespace resource urls endpoint :
  py_or endpoint None = None →
  ∃ self' name,
    register_resource self namespace resource urls endpoint = Some (self', name)
    ∧ name ∉ endpoints self
    ∧ endpoints self' = {[ name ]} ∪ endpoints self.
Proof.
  intros Hnone. unfold register_resource. rewrite Hnone.
  destruct (default_endpoint_returns self resource namespace) as (ep & -> & Hfresh).
  simpl. destruct (api_app self); eauto.
Qed.

(** X2: resources registered without explicit endpoint never collide: the
    names a sequence of such registrations adds are pairwise distinct and
    none of them was an endpoint of the Api before. *)
Theorem default_registrations_distinct self ops self' added :
  Forall default_registration ops →
  register_all self ops = Some (self', added) →
  NoDup added ∧ ∀ endpoint, endpoint ∈ added → endpoint ∉ endpoints self.
Proof.
  intros Hops. revert self self' added.
  induction Hops as [|op ops Hop Hops IH]; intros self self' added; simpl.
  - intros [= <- <-]. split; [constructor | intros ? Hin; inversion Hin].
  - destruct op as [ns r urls ep|]; [| done]. simpl in Hop.
    destruct (register_resource_default self ns r urls ep Hop)
      as (self1 & name1 & -> & Hfresh & Heps). simpl.
    destruct (register_all self1 ops) as [[self2 added2]|] eqn:Hrest; [| done].
    simpl. intros [= <- <-].
    destruct (IH _ _ _ Hrest) as [Hnodup Hnew].
    assert (Hname : name1 ∉ added2).
    { intros Hin. apply (Hnew _ Hin). rewrite Heps. set_solver. }
    split; [by constructor |].
    intros endpoint Hin. inversion Hin; subst; [done |].
    intros Hold. apply (Hnew endpoint); [done |]. rewrite Heps. set_solver.
Qed.

Lemma default_registrations_distinct_witness :
  NoDup ["todo"; "todo_2"; "admin_todo"]
  ∧ ∀ endpoint, endpoint ∈ ["todo"; "todo_2"; "admin_todo"] →
                endpoint ∉ endpoints (init_app two_apis.1).
Proof.
  apply (default_registrations_distinct (init_app two_apis.1)
           [RegisterResource {| ns_id := 0; ns_name := "default" |}
              {| resource_dash_name := "todo" |} ["/todo"] None;
            RegisterResource {| ns_id := 0; ns_name := "default" |}
              {| resource_dash_name := "todo" |} ["/todo/again"] (Some "");
            RegisterResource {| ns_id := 5; ns_name := "admin" |}
              {| resource_dash_name := "todo" |} ["/admin/todo"] None]
           (registered (init_app two_apis.1)
              [RegisterResource {| ns_id := 0; ns_name := "default" |}
                 {| resource_dash_name := "todo" |} ["/todo"] None;
               RegisterResource {| ns_id := 0; ns_name := "default" |}
                 {| resource_dash_name := "todo" |} ["/todo/again"] (Some "");
               RegisterResource {| ns_id := 5; ns_name := "admin" |}
                 {| resource_dash_name := "todo" |} ["/admin/todo"] None]).1).
  - repeat constructor.
  - vm_compute. reflexivity.
Defined.

(** X3: on an Api without application, where [register_resource] only
    queues the resource, an explicit endpoint name is taken as it is: no free
    name is looked for, so registering under a name the Api already owns
    returns that name, leaves the endpoint set as it was, and queues the
    resource under the very same name. *)
Theorem explicit_endpoint_is_not_checked self namespace resource urls endpoint :
  api_app self = false →
  endpoint ≠ "" →
  ∃ self',
    register_resource self namespace resource urls (Some endpoint)
    = Some (self', endpoint)
    ∧ endpoints self' = {[ endpoint ]} ∪ endpoints self
    ∧ (endpoint ∈ endpoints self → endpoints self' = endpoints self)
    ∧ resources self' = (resources self ++ [(resource, urls, endpoint)])%list.
Proof.
  intros Happ Hne. unfold register_resource, py_or.
  rewrite decide_False by done. simpl. rewrite Happ.
  eexists. split; [done |]. simpl. split; [done |]. split; [set_solver | done].
Qed.

Lemma explicit_endpoint_is_not_checked_witness :
  ∃ self',
    register_resource (api_of todos_added) {| ns_id := 0; ns_name := "default" |}
      {| resource_dash_name := "other" |} ["/other"] (Some "todos_todo")
    = Some (self', "todos_todo")
    ∧ endpoints self' = {[ "todos_todo" ]} ∪ endpoints (api_of todos_added)
    ∧ ("todos_todo" ∈ endpoints (api_of todos_added) →
       endpoints self' = endpoints (api_of todos_added))
    ∧ resources self'
      = (resources (api_of todos_added)
         ++ [({| resource_dash_name := "other" |}, ["/other"], "todos_todo")])%list.
Proof.
  apply (explicit_endpoint_is_not_checked (api_of todos_added)
           {| ns_id := 0; ns_name := "default" |} {| resource_dash_name := "other" |}
           ["/other"] "todos_todo").
  - reflexivity.
  - discriminate.
Defined.

(** ** The order of the requested media types *)

Lemma insert_by_quality_sorted x l :
  StronglySorted quality_ge l → StronglySorted quality_ge (insert_by_quality x l).
Proof.
  induction 1 as [|y l Hsorted IH Hall]; simpl.
  - by repeat constructor.
  - destruct (x.2 <? y.2)%N eqn:Hlt.
    + apply N.ltb_lt in Hlt. constructor; [done |].
      rewrite insert_by_quality_perm. constructor; [| done].
      unfold quality_ge. lia.
    + apply N.ltb_ge in Hlt. constructor; [by constructor |].
      constructor; [done |].
      eapply Forall_impl; [exact Hall |]. unfold quality_ge. intros z Hz. lia.
Qed.

Lemma insert_by_quality_filter q x l :
  filter (λ y, y.2 = q) (insert_by_quality x l) = filter (λ y, y.2 = q) (x :: l).
Proof.
  induction l as [|y l IH]; simpl; [done |].
  destruct (x.2 <? y.2)%N eqn:Hlt; [| done].
  apply N.ltb_lt in Hlt. rewrite (filter_cons _ y), IH, !filter_cons.
  repeat case_decide; try done. lia.
Qed.

(** X4: [mediatypes] lists exactly the media types of the Accept header,
    ordered by non-increasing quality, with media types of equal quality in
    the order of the header. *)
Theorem mediatypes_sorted_stable request :
  ∃ sorted,
    mediatypes request = sorted.*1
    ∧ sorted ≡ₚ accept_mimetypes request
    ∧ StronglySorted quality_ge sorted
    ∧ ∀ q, filter (λ y, y.2 = q) sorted
           = filter (λ y, y.2 = q) (accept_mimetypes request).
Proof.
  exists (sorted_by_quality (accept_mimetypes request)).
  split; [done |]. split; [apply sorted_by_quality_perm |].
  induction (accept_mimetypes request) as [|x l [IHs IHf]]; simpl.
  - split; [constructor | done].
  - split; [by apply insert_by_quality_sorted |].
    intros q. rewrite insert_by_quality_filter, !filter_cons, IHf. done.
Qed.

(** ** The route lookup *)

Lemma scan_routes_app method url l1 l2 route route_found :
  scan_routes method url (l1 ++ l2) route route_found
  = match scan_routes method url l1 route route_found with
    | inl r => inl r
    | inr (route', route_found') => scan_routes method url l2 route' route_found'
    end.
Proof.
  revert route route_found. induction l1 as [|r l1 IH]; intros route found; simpl.
  - done.
  - destruct (pattern r url && bool_decide (method ∈ methods r)); [done | apply IH].
Qed.

(** A scan ends at the first route that accepts; when none does, the loop
    variable is the last route of the list and [route_found] tells whether
    some pattern matched. *)
Lemma scan_routes_find method url l route route_found :
  scan_routes method url l route route_found
  = match List.find (route_accepts method url) l with
    | Some r => inl r
    | None => inr (from_option Some route (last l),
                   route_found || existsb (λ r, pattern r url) l)
    end.
Proof.
  revert route route_found. induction l as [|r l IH]; intros route found; simpl.
  - by rewrite orb_false_r.
  - unfold route_accepts at 1.
    destruct (pattern r url && bool_decide (method ∈ methods r)); [done |].
    rewrite IH. destruct (List.find _ l); [done |].
    rewrite last_cons, orb_assoc. by destruct (last l).
Qed.

Lemma _dummy_router_get_dynamic router method request :
  routes_static router !! path request = None →
  _dummy_router_get router method request
  = match List.find (route_accepts method (path request))
            (dynamic_candidates router (path request)) with
    | Some route => Ok route
    | None =>
        if existsb (λ r, pattern r (path request))
             (dynamic_candidates router (path request))
        then match last (dynamic_candidates router (path request)) with
             | Some route =>
                 Raise (method_not_supported method (path request)
                          (Some (methods route)))
             | None =>
                 Raise (AttributeError "'NoneType' object has no attribute 'methods'")
             end
        else Raise (NotFound ("Requested URL " +:+ path request +:+ " not found"))
    end.
Proof.
  intros Hstatic. unfold _dummy_router_get. rewrite Hstatic.
  pose proof (scan_routes_app method (path request)
                (default [] (routes_dynamic router !! url_hash (path request)))
                (routes_always_check router) None false) as Happ.
  fold (dynamic_candidates router (path request)) in Happ.
  rewrite scan_routes_find in Happ.
  destruct (scan_routes method (path request)
              (default [] (routes_dynamic router !! url_hash (path request)))
              None false) as [r|[route found]].
  - destruct (List.find _ _); by inversion Happ.
  - rewrite <- Happ. destruct (List.find _ _); [done |].
    simpl. by destruct (existsb _ _), (last _).
Qed.

Lemma existsb_last_is_Some {A} (f : A → bool) (l : list A) :
  existsb f l = true → is_Some (last l).
Proof. destruct l; [done |]. intros _. by apply last_is_Some. Qed.

(** X5: the lookup returns the static route of the path when there is one
    that lists no methods or lists the method, and otherwise the first route,
    among the bucket of the path's hash and then the always-checked routes,
    whose pattern matches the path and whose methods contain the method. It
    returns no other route. *)
Theorem _dummy_router_get_returns router method request route :
  _dummy_router_get router method request = Ok route ↔
  match routes_static router !! path request with
  | Some static => route = static ∧ (methods static = [] ∨ method ∈ methods static)
  | None =>
      List.find (route_accepts method (path request))
        (dynamic_candidates router (path request)) = Some route
  end.
Proof.
  destruct (routes_static router !! path request) as [static|] eqn:Hstatic.
  - unfold _dummy_router_get. rewrite Hstatic.
    destruct (decide (methods static = [])) as [Hnil|Hnil].
    + rewrite (bool_decide_eq_false_2 (methods static ≠ [])) by (by intros ?).
      simpl. split; [intros [= <-]; auto | by intros [-> _]].
    + rewrite (bool_decide_eq_true_2 (methods static ≠ [])) by done. simpl.
      destruct (decide (method ∈ methods static)) as [Hin|Hin].
      * rewrite (bool_decide_eq_false_2 (method ∉ methods static)) by (by intros ?).
        split; [intros [= <-]; auto | by intros [-> _]].
      * rewrite (bool_decide_eq_true_2 (method ∉ methods static)) by done.
        split; [done | intros [_ [?|?]]; done].
  - rewrite (_dummy_router_get_dynamic _ _ _ Hstatic).
    destruct (List.find _ _) as [r|]; [split; congruence |].
    split; [| done].
    by destruct (existsb _ _), (last (dynamic_candidates router (path request))).
Qed.

(** X6: the lookup raises [NotFound] exactly for the paths that match no
    registered route: no static route, and no pattern among the routes it
    goes through. *)
Theorem _dummy_router_get_not_found_iff router method request :
  _dummy_router_get router method request
  = Raise (NotFound ("Requested URL " +:+ path request +:+ " not found"))
  ↔ no_route_matches router (path request).
Proof.
  split; [| apply _dummy_router_get_not_found].
  destruct (routes_static router !! path request) as [static|] eqn:Hstatic.
  - unfold _dummy_router_get. rewrite Hstatic. by destruct (_ && _).
  - rewrite (_dummy_router_get_dynamic _ _ _ Hstatic).
    destruct (List.find _ _); [done |].
    destruct (existsb _ _) eqn:Hex;
      [by destruct (last (dynamic_candidates router (path request))) |].
    intros _. split; [done |].
    assert (Hall : ∀ route, route ∈ dynamic_candidates router (path request) →
                            pattern route (path request) = false).
    { intros route Hin. apply not_true_is_false. intros Hp.
      assert (existsb (λ r, pattern r (path request))
                (dynamic_candidates router (path request)) = true) as Htrue.
      { apply existsb_exists. exists route. split; [by apply list_elem_of_In | done]. }
      congruence. }
    split; intros route Hin; apply Hall; unfold dynamic_candidates;
      apply elem_of_app; auto.
Qed.

(** X8: for a path without static route, when some pattern matches but no
    matching route lists the method, the 405 records the methods of the last
    route the lookup went through, whether or not that route matches the
    path. *)
Theorem _dummy_router_get_405_methods_of_last_route router method request :
  routes_static router !! path request = None →
  List.find (route_accepts method (path request))
    (dynamic_candidates router (path request)) = None →
  existsb (λ r, pattern r (path request))
    (dynamic_candidates router (path request)) = true →
  ∃ route,
    last (dynamic_candidates router (path request)) = Some route
    ∧ _dummy_router_get router method request
      = Raise (method_not_supported method (path request) (Some (methods route))).
Proof.
  intros Hstatic Hfind Hex.
  rewrite (_dummy_router_get_dynamic _ _ _ Hstatic), Hfind, Hex.
  destruct (existsb_last_is_Some _ _ Hex) as [route Hlast].
  exists route. by rewrite Hlast.
Qed.

Lemma _dummy_router_get_405_methods_of_last_route_witness :
  ∃ route,
    last (dynamic_candidates (router dynamic_app) (path delete_item_request))
    = Some route
    ∧ _dummy_router_get (router dynamic_app) "DELETE" delete_item_request
      = Raise (method_not_supported "DELETE" (path delete_item_request)
                 (Some (methods route))).
Proof.
  apply (_dummy_router_get_405_methods_of_last_route (router dynamic_app)
           "DELETE" delete_item_request);
    vm_compute; reflexivity.
Defined.

(** ** Ownership of a request *)

(** X9: for a path with a static route the ownership test always answers, it
    never raises: when the route rejects the method (a 405) the answer is
    whether the Api owns the route's name; otherwise it is that, provided the
    route has a handler and a non-empty name. *)
Theorem _has_fr_route_static self request app0 route :
  app request = Some app0 →
  routes_static (router app0) !! path request = Some route →
  _has_fr_route self (Some request)
  = Ok (if bool_decide (methods route ≠ [])
           && bool_decide (method request ∉ methods route)
        then owns_endpoint self (name route)
        else negb (bool_decide (handler route = None) || bool_decide (name route = ""))
             && owns_endpoint self (name route)).
Proof.
  intros Happ Hstatic.
  unfold _has_fr_route, _should_use_fr_error_handler. rewrite Happ.
  unfold _dummy_router_get at 1. rewrite Hstatic.
  destruct (bool_decide (methods route ≠ [])) eqn:Hne; simpl.
  - apply bool_decide_eq_true in Hne.
    destruct (bool_decide (method request ∉ methods route)); simpl.
    + destruct (methods route) as [|m ms] eqn:Hms; [done |]. simpl.
      unfold _dummy_router_get. rewrite Hstatic, Hms.
      rewrite (bool_decide_eq_false_2 (m ∉ m :: ms)) by (intros Hn; apply Hn; left).
      rewrite andb_false_r. simpl. by destruct (owns_endpoint self (name route)).
    + by destruct (bool_decide (handler route = None) || bool_decide (name route = "")).
  - by destruct (bool_decide (handler route = None) || bool_decide (name route = "")).
Qed.

Lemma _has_fr_route_static_witness :
  _has_fr_route (todo_api (Some "application/json") false) (Some get_todo_on_put_only)
  = Ok (owns_endpoint (todo_api (Some "application/json") false) "todo").
Proof.
  apply (_has_fr_route_static (todo_api (Some "application/json") false)
           get_todo_on_put_only put_only_app
           {| handler := Some "todo"; methods := ["PUT"];
              pattern := λ url, bool_decide (url = "/todo"); name := "todo" |}).
  - reflexivity.
  - vm_compute. reflexivity.
Defined.

(** X10: an error that is not this Api's is always left to the original
    handler, with the request and the error as they came: that is so for an
    error outside of any request, for a request without application, and for
    a request whose route has no handler, no name, or a name the Api does not
    own. *)
Theorem response_leaves_foreign_errors self request e :
  not_of_this_api (api self) request →
  response self request e = original_handler self request e.
Proof.
  unfold not_of_this_api, response, _has_fr_route, _should_use_fr_error_handler.
  destruct request as [request|]; [| done].
  destruct (app request) as [app0|]; [| done].
  intros (route & -> & Hroute). simpl.
  destruct Hroute as [-> | [-> | ->]].
  - done.
  - by rewrite orb_true_r.
  - by destruct (_ || _).
Qed.

Lemma response_leaves_foreign_errors_witness :
  response failing_handler_router (Some item_request) teapot_error
  = original_handler failing_handler_router (Some item_request) teapot_error.
Proof.
  apply (response_leaves_foreign_errors failing_handler_router
           (Some item_request) teapot_error).
  exists item_route. split; [vm_compute; reflexivity |].
  right. right. vm_compute. reflexivity.
Defined.

(** ** Registering error handlers *)

(** X11: a handler registered for an exception class is used for the errors
    of exactly that class, and the registration changes the resolution of no
    other error: an error of another class, also one that is an instance of
    the registered class through inheritance, resolves as before. *)
Theorem errorhandler_exact_class self cls f e :
  resolve_error (errorhandler self cls f) e
  = if decide (exc_class e = cls) then handler_resolution f e
    else resolve_error self e.
Proof.
  unfold resolve_error, errorhandler, handler_resolution.
  cbn [error_handlers _default_error_handler].
  case_decide as Hcls.
  - subst cls. rewrite lookup_insert_eq. by destruct (f e).
  - by rewrite lookup_insert_ne.
Qed.

(** X12: the default handler is the last resort but one: registering it
    changes nothing for an error whose class has a handler of its own, nor for
    a framework HTTP error; every other error goes to it instead of the
    generic 500. *)
Theorem errorhandler_default_scope self f e :
  resolve_error (errorhandler_default self f) e
  = if bool_decide (is_Some (error_handlers self !! exc_class e))
       || isinstance e "SanicException"
    then resolve_error self e
    else handler_resolution f e.
Proof.
  unfold resolve_error, errorhandler_default, handler_resolution.
  cbn [error_handlers _default_error_handler].
  destruct (error_handlers self !! exc_class e) as [h|].
  - by rewrite bool_decide_eq_true_2 by eauto.
  - rewrite bool_decide_eq_false_2 by (by intros [? ?]).
    destruct (isinstance e "SanicException"); [done |]. simpl.
    by destruct (f e).
Qed.

(** ** The per-code branches of [handle_error] *)

(** X13: with the 404 help enabled (the default of an application without
    the setting) no error that resolves to status 404 gets a response from
    [handle_error], whichever rule resolved it: the call ends in
    [NotImplementedError], or in [AttributeError] when the error's [data] is
    not a dict. *)
Theorem handle_error_404_with_help_raises self request app0 e dd hdrs :
  app request = Some app0 →
  resolve_error self e = Ok (dd, 404, hdrs) →
  default true (config app0 !! "ERROR_404_HELP") = true →
  handle_error self (Some request) e
  = Raise (match error_data e dd with
           | PyDict _ =>
               NotImplementedError
                 "Help on 404 is not yet implemented for Sanic-RestPlus"
           | PyOther _ => AttributeError "get"
           end).
Proof.
  intros Happ Hres Hhelp.
  rewrite (handle_error_unfold _ _ _ _ Happ), Hres, bind_Ok.
  unfold finish_error. cbv beta iota zeta. fold (error_data e dd).
  rewrite (bool_decide_eq_false_2 (500 ≤ 404)) by lia.
  rewrite (bool_decide_eq_true_2 (404 = 404)) by done.
  rewrite Hhelp. cbv beta iota zeta delta [andb].
  by destruct (error_data e dd).
Qed.

Lemma handle_error_404_with_help_raises_witness :
  handle_error (errorhandler default_api "TeapotError" missing_item_handler)
    (Some (todo_request [])) teapot_error
  = Raise (NotImplementedError "Help on 404 is not yet implemented for Sanic-RestPlus").
Proof.
  apply (handle_error_404_with_help_raises
           (errorhandler default_api "TeapotError" missing_item_handler)
           (todo_request []) example_app teapot_error
           {[ "detail" := PStr "no such item" ]} ∅).
  - reflexivity.
  - vm_compute. reflexivity.
  - reflexivity.
Defined.

(** X14: for an error that resolves to status 401 the rendered response goes
    through [unauthorized]: with [serve_challenge_on_401] off it is returned
    as rendered (no challenge header is added); with it on, [handle_error]
    raises [NameError] once the response is rendered, and so never returns a
    response. *)
Theorem handle_error_401 self request app0 e dd hdrs :
  app request = Some app0 →
  resolve_error self e = Ok (dd, 401, hdrs) →
  handle_error self (Some request) e
  = match make_response self request (error_data e dd) 401
            (delete "Content-Length" hdrs) None with
    | Ok resp =>
        if serve_challenge_on_401 self
        then Raise (NameError "name 'current_app' is not defined")
        else Ok resp
    | Raise err => Raise err
    end.
Proof.
  intros Happ Hres.
  rewrite (handle_error_unfold _ _ _ _ Happ), Hres, bind_Ok.
  unfold finish_error. cbv beta iota zeta. fold (error_data e dd).
  rewrite (bool_decide_eq_false_2 (500 ≤ 401)) by lia.
  rewrite (bool_decide_eq_false_2 (401 = 404)) by lia.
  rewrite (bool_decide_eq_false_2 (401 = 406)) by lia.
  cbv beta iota zeta delta [andb]. rewrite bind_Ok. cbv beta iota zeta.
  rewrite (bool_decide_eq_true_2 (401 = 401)) by done.
  rewrite remove_blacklisted_eq.
  by destruct (make_response _ _ _ _ _ _).
Qed.

Lemma handle_error_401_witness :
  handle_error (errorhandler default_api "TeapotError" unauthorized_handler)
    (Some (todo_request [])) teapot_error
  = Ok {| status := 401;
          headers := {[ "Content-Type" := "application/json"; "X-Reason" := "token" ]};
          body := JsonBody (PyDict {[ "message" := PStr "Unauthorized" ]}) |}.
Proof.
  assert (Hres : resolve_error
                   (errorhandler default_api "TeapotError" unauthorized_handler)
                   teapot_error
                 = Ok (({[ "message" := PStr "Unauthorized" ]} : gmap string pyval),
                       401,
                       ({[ "Content-Length" := "12"; "X-Reason" := "token" ]}
                          : gmap string string)))
    by (vm_compute; reflexivity).
  rewrite (handle_error_401 _ (todo_request []) example_app _ _ _ eq_refl Hres).
  vm_compute. reflexivity.
Defined.



(** X16: for an error whose class has a registered handler and that carries
    no [data] attribute, the response is the rendering of what the handler
    returned: its body, with [message] set to [str(e)] if the body has none,
    its status code (500 when the handler returns a body only) and its
    headers without [Content-Length]. This holds for every status code but
    401, 404 and 406, which have branches of their own. *)
Theorem handle_error_registered_handler self request app0 e f ret :
  app request = Some app0 →
  error_handlers self !! exc_class e = Some f →
  f e = Ok ret →
  exc_data e = None →
  (unpack ret 500).1.2 ≠ 401 ∧ (unpack ret 500).1.2 ≠ 404
  ∧ (unpack ret 500).1.2 ≠ 406 →
  handle_error self (Some request) e
  = make_response self request
      (PyDict (<[ "message" := default (PStr (exc_str e))
                                 ((unpack ret 500).1.1 !! "message") ]>
                 (unpack ret 500).1.1))
      (unpack ret 500).1.2 (delete "Content-Length" (unpack ret 500).2) None.
Proof.
  intros Happ Hh Hf Hdata (H401 & H404 & H406).
  rewrite (handle_error_unfold _ _ _ _ Happ).
  unfold resolve_error. rewrite Hh, Hf, !bind_Ok.
  destruct (unpack ret 500) as [[dd code] hdrs]. cbn [fst snd] in *.
  assert (Hdata' : error_data e dd
            = PyDict (<[ "message" := default (PStr (exc_str e)) (dd !! "message") ]> dd))
    by (unfold error_data; by rewrite Hdata).
  rewrite <- Hdata', <- remove_blacklisted_eq.
  destruct (decide (500 ≤ code)).
  - by apply finish_error_5xx.
  - apply finish_error_plain; [lia | done | by left | by left].
Qed.

Lemma handle_error_registered_handler_witness :
  handle_error (errorhandler default_api "TeapotError" conflict_handler)
    (Some (todo_request [])) teapot_error
  = make_response (errorhandler default_api "TeapotError" conflict_handler)
      (todo_request [])
      (PyDict (<[ "message" := default (PStr (exc_str teapot_error))
                                 (({[ "detail" := PStr "conflict" ]}
                                     : gmap string pyval) !! "message") ]>
                 {[ "detail" := PStr "conflict" ]}))
      409 (delete "Content-Length" {[ "Content-Length" := "7" ]}) None.
Proof.
  assert (Hh : error_handlers (errorhandler default_api "TeapotError" conflict_handler)
               !! exc_class teapot_error = Some conflict_handler)
    by (vm_compute; reflexivity).
  assert (Hcode : (409 ≠ 401 ∧ 409 ≠ 404 ∧ 409 ≠ 406)%Z) by (repeat split; discriminate).
  exact (handle_error_registered_handler
           (errorhandler default_api "TeapotError" conflict_handler)
           (todo_request []) example_app teapot_error conflict_handler
           (Ret3 {[ "detail" := PStr "conflict" ]} 409 {[ "Content-Length" := "7" ]})
           eq_refl Hh eq_refl eq_refl Hcode).
Defined.

(** ** Registering representations *)

Lemma odict_get_set {V} (k k' : string) (v : V) (d : list (string * V)) :
  odict_get k' (odict_set k v d)
  = if decide (k' = k) then Some v else odict_get k' d.
Proof.
  induction d as [|[k0 v0] d IH]; simpl.
  - repeat case_decide; congruence.
  - destruct (decide (k0 = k)) as [->|Hk0]; simpl.
    + repeat case_decide; congruence.
    + rewrite IH. repeat case_decide; congruence.
Qed.

Lemma odict_keys_set_in {V} (k : string) (v : V) (d : list (string * V)) :
  k ∈ odict_keys d → odict_keys (odict_set k v d) = odict_keys d.
Proof.
  unfold odict_keys. induction d as [|[k0 v0] d IH]; simpl.
  - intros H. inversion H.
  - intros Hin. destruct (decide (k0 = k)) as [->|Hk0]; simpl; [done |].
    f_equal. apply IH. inversion Hin; by subst.
Qed.

Lemma odict_keys_set_notin {V} (k : string) (v : V) (d : list (string * V)) :
  k ∉ odict_keys d → odict_keys (odict_set k v d) = (odict_keys d ++ [k])%list.
Proof.
  unfold odict_keys. induction d as [|[k0 v0] d IH]; simpl; [done |].
  intros Hnotin. destruct (decide (k0 = k)) as [->|Hk0]; simpl.
  - exfalso. apply Hnotin. left.
  - f_equal. apply IH. intros Hin. apply Hnotin. by right.
Qed.

Lemma odict_keys_set {V} (k : string) (v : V) (d : list (string * V)) :
  odict_keys (odict_set k v d)
  = if decide (k ∈ odict_keys d) then odict_keys d else (odict_keys d ++ [k])%list.
Proof.
  case_decide; [by apply odict_keys_set_in | by apply odict_keys_set_notin].
Qed.

(** X17: a representation registered for a media type replaces what was
    registered for it and leaves the other media types alone; from then on a
    response negotiated to that media type is rendered by the new function
    (also for [text/plain], in place of the built-in text renderer). *)
Theorem representation_lookup self mediatype func :
  (∀ m, odict_get m (representations (representation self mediatype func))
        = if decide (m = mediatype) then Some func
          else odict_get m (representations self))
  ∧ ∀ request data code hdrs fallback,
      best_match_accept_mimetype request
        (representations (representation self mediatype func))
        (py_or fallback (default_mediatype self)) = Some mediatype →
      make_response (representation self mediatype func) request data code hdrs
        fallback
      = Ok (set_header "Content-Type" mediatype (func request data code hdrs)).
Proof.
  assert (Hget : ∀ m, odict_get m (representations (representation self mediatype func))
                      = if decide (m = mediatype) then Some func
                        else odict_get m (representations self)).
  { intros m. unfold representation. cbn [representations]. apply odict_get_set. }
  split; [done |].
  intros request data code hdrs fallback Hbest.
  rewrite make_response_unfold.
  change (default_mediatype (representation self mediatype func))
    with (default_mediatype self).
  rewrite Hbest, Hget. by rewrite decide_True.
Qed.

(** X18: registering a representation keeps the order of the registry: a
    media type already registered keeps its place, a new one goes last. So
    the registered media types stay distinct, and the first one, which is the
    fallback for rendering a 406, never changes once there is one. *)
Theorem representation_keeps_order self mediatype func :
  odict_keys (representations (representation self mediatype func))
  = (if decide (mediatype ∈ odict_keys (representations self))
     then odict_keys (representations self)
     else odict_keys (representations self) ++ [mediatype])%list
  ∧ (NoDup (odict_keys (representations self)) →
     NoDup (odict_keys (representations (representation self mediatype func))))
  ∧ (representations self ≠ [] →
     head (odict_keys (representations (representation self mediatype func)))
     = head (odict_keys (representations self))).
Proof.
  assert (Hkeys : odict_keys (representations (representation self mediatype func))
          = (if decide (mediatype ∈ odict_keys (representations self))
             then odict_keys (representations self)
             else odict_keys (representations self) ++ [mediatype])%list).
  { unfold representation. cbn [representations]. apply odict_keys_set. }
  split; [done |]. rewrite Hkeys. split.
  - intros Hnodup. case_decide as Hin; [done |].
    apply NoDup_app. split; [done |]. split; [| apply NoDup_singleton].
    intros x Hx Hx'. apply list_elem_of_singleton in Hx'. by subst.
  - intros Hne. case_decide; [done |].
    destruct (representations self) as [|[k v] d]; [done | done].
Qed.

(** ** Namespaces *)

Lemma dict_update_union {V} (target d : gmap string V) :
  dict_update target d = d ∪ target.
Proof.
  unfold dict_update.
  apply (map_fold_weak_ind (λ r m, r = m ∪ target)).
  - by rewrite (left_id_L ∅ (∪)).
  - intros i x m r Hi ->. by rewrite insert_union_l.
Qed.

Lemma register_resource_inv self namespace resource urls endpoint self' name :
  register_resource self namespace resource urls endpoint = Some (self', name) →
  error_handlers self' = error_handlers self
  ∧ api_app self' = api_app self
  ∧ endpoints self' = {[ name ]} ∪ endpoints self
  ∧ resources self'
    = (if api_app self then resources self
       else resources self ++ [(resource, urls, name)])%list
  ∧ (py_or endpoint None = None → name ∉ endpoints self).
Proof.
  unfold register_resource.
  destruct (default_endpoint_returns self resource namespace) as (ep & Hep & Hfresh).
  destruct (py_or endpoint None) as [given|]; simpl.
  - destruct (api_app self) eqn:Happ; intros [= <- <-]; simpl;
      rewrite ?Happ; repeat split; done.
  - rewrite Hep. simpl.
    destruct (api_app self) eqn:Happ; intros [= <- <-]; simpl;
      rewrite ?Happ; repeat split; done.
Qed.

(** The loop over the resources of a namespace, on the Api's own state: it
    touches neither the error handlers nor the application, queues every
    resource with its prefixed urls when there is no application, and adds
    one new endpoint per resource that leaves its endpoint name to the Api. *)
Lemma register_ns_resources_returns paths ns self rs :
  ∃ self',
    register_ns_resources paths ns self rs = Some self'
    ∧ error_handlers self' = error_handlers self
    ∧ api_app self' = api_app self
    ∧ endpoints self ⊆ endpoints self'
    ∧ (api_app self = false →
       (resources self').*1
       = ((resources self).*1
          ++ ((λ r, (r.1.1, ns_urls paths ns r.1.2)) <$> rs))%list)
    ∧ (Forall (λ r, py_or r.2 None = None) rs →
       size (endpoints self') = (size (endpoints self) + length rs)%nat).
Proof.
  revert self. induction rs as [|[[resource urls] endpoint] rs IH]; intros self; simpl.
  - exists self. do 4 (split; [done |]). split.
    + intros _. by rewrite app_nil_r.
    + intros _. lia.
  - destruct (register_resource_returns self (ns_self ns) resource
                (ns_urls paths ns urls) endpoint) as (self1 & name & Hreg & _).
    rewrite Hreg. simpl.
    destruct (register_resource_inv _ _ _ _ _ _ _ Hreg)
      as (Hh1 & Happ1 & Heps1 & Hres1 & Hfresh1).
    destruct (IH self1) as (self2 & -> & Hh2 & Happ2 & Heps2 & Hres2 & Hsize2).
    exists self2. split; [done |]. split; [congruence |]. split; [congruence |].
    split; [rewrite Heps1 in Heps2; set_solver |]. split.
    + intros Happ. rewrite Hres2 by congruence. rewrite Hres1, Happ.
      rewrite fmap_app. simpl. by rewrite <- app_assoc.
    + intros Hall. inversion Hall as [|? ? Hdef Hrest]; subst. simpl in Hdef.
      rewrite (Hsize2 Hrest), Heps1.
      rewrite size_union by (specialize (Hfresh1 Hdef); set_solver).
      rewrite size_singleton. lia.
Qed.

(** On an Api without application [add_namespace] always returns. *)
Lemma add_namespace_returns self ns path :
  api_app (api_of self) = false →
  ∃ self' ns', add_namespace self ns path = Some (self', ns').
Proof.
  intros _. unfold add_namespace.
  set (self1 := if decide (ns_id (ns_self ns) ∈ namespaces self) then self else _).
  destruct (register_ns_resources_returns self1 ns (api_of self1) (ns_resources ns))
    as (api1 & -> & _).
  cbn [mbind option_bind]. by eexists _, _.
Qed.

(** X19: when [add_namespace] returns, it has merged the namespace's error
    handlers and models into the Api's with the namespace winning: afterwards
    an error whose class the namespace has a handler for is resolved by that
    handler, also when the Api had one of its own (such as the built-in
    handlers of the mask errors); every other handler and model is kept. *)
Theorem add_namespace_merges_handlers self ns path self' ns' :
  add_namespace self ns path = Some (self', ns') →
  error_handlers (api_of self')
  = ns_error_handlers ns ∪ error_handlers (api_of self)
  ∧ models self' = ns_models ns ∪ models self
  ∧ ∀ e f, ns_error_handlers ns !! exc_class e = Some f →
           resolve_error (api_of self') e = handler_resolution f e.
Proof.
  unfold add_namespace.
  set (self1 := if decide (ns_id (ns_self ns) ∈ namespaces self) then self else _).
  assert (Hapi : api_of self1 = api_of self ∧ models self1 = models self)
    by (unfold self1; by case_decide).
  destruct Hapi as [Hapi Hmodels].
  destruct (register_ns_resources_returns self1 ns (api_of self1) (ns_resources ns))
    as (api1 & -> & Hh & _).
  cbn [mbind option_bind]. intros [= <- _].
  cbn [api_of models error_handlers set_error_handlers].
  rewrite (dict_update_union (error_handlers api1) (ns_error_handlers ns)).
  rewrite (dict_update_union (models self1) (ns_models ns)).
  rewrite Hh, Hapi, Hmodels.
  split; [done |]. split; [done |].
  intros e f Hf. unfold resolve_error, handler_resolution.
  cbn [error_handlers set_error_handlers].
  rewrite (lookup_union_Some_l _ _ _ _ Hf). by destruct (f e).
Qed.

Lemma add_namespace_merges_handlers_witness :
  error_handlers (api_of todos_added)
  = ns_error_handlers todos_namespace ∪ error_handlers (api_of fresh_api_namespaces)
  ∧ models todos_added = ns_models todos_namespace ∪ models fresh_api_namespaces
  ∧ ∀ e f, ns_error_handlers todos_namespace !! exc_class e = Some f →
           resolve_error (api_of todos_added) e = handler_resolution f e.
Proof.
  apply (add_namespace_merges_handlers fresh_api_namespaces todos_namespace
           (Some "/api/todos") todos_added
           (default (fresh_api_namespaces, todos_namespace)
              (add_namespace fresh_api_namespaces todos_namespace
                 (Some "/api/todos"))).2).
  unfold todos_added.
  destruct (add_namespace_returns fresh_api_namespaces todos_namespace
              (Some "/api/todos") eq_refl) as (self' & ns' & ->).
  reflexivity.
Defined.

(** X20: on an Api without application, adding a namespace that the Api
    already has queues its resources once more: the list of namespaces and
    the recorded paths stay as they are (a path given now is ignored), every
    resource is queued again behind the path recorded before, and when the
    resources leave their endpoint names to the Api, every one of them gets a
    further, new endpoint. *)
Theorem add_namespace_again self ns path :
  api_app (api_of self) = false →
  ns_id (ns_self ns) ∈ namespaces self →
  Forall (λ r, py_or r.2 None = None) (ns_resources ns) →
  ∃ self',
    add_namespace self ns path = Some (self', ns)
    ∧ namespaces self' = namespaces self
    ∧ ns_paths self' = ns_paths self
    ∧ (resources (api_of self')).*1
      = ((resources (api_of self)).*1
         ++ ((λ r : Resource * list string * option string,
                (r.1.1, ns_urls self ns r.1.2)) <$> ns_resources ns))%list
    ∧ endpoints (api_of self) ⊆ endpoints (api_of self')
    ∧ size (endpoints (api_of self'))
      = (size (endpoints (api_of self)) + length (ns_resources ns))%nat.
Proof.
  intros Happ Hin Hall. unfold add_namespace. rewrite !decide_True by done.
  destruct (register_ns_resources_returns self ns (api_of self) (ns_resources ns))
    as (api1 & -> & _ & _ & Hsub & Hres & Hsize).
  simpl. eexists. split; [done |].
  cbn [api_of namespaces ns_paths resources set_error_handlers].
  split; [done |]. split; [done |]. split; [by apply Hres |].
  split; [done |]. by apply Hsize.
Qed.

(** X21: the first time a namespace is added it is recorded with the Api, the
    Api with the namespace, and on an Api without application every resource
    of the namespace is queued with its urls behind the path given with the
    call; an absent or empty path gives the namespace's own path instead. *)
Theorem add_namespace_first_time self ns path :
  ns_id (ns_self ns) ∉ namespaces self →
  ns_paths self !! ns_id (ns_self ns) = None →
  api_app (api_of self) = false →
  ∃ self' ns',
    add_namespace self ns path = Some (self', ns')
    ∧ namespaces self' = (namespaces self ++ [ns_id (ns_self ns)])%list
    ∧ _uid (api_of self) ∈ ns_apis ns'
    ∧ (resources (api_of self')).*1
      = ((resources (api_of self)).*1
         ++ ((λ r : Resource * list string * option string,
                (r.1.1,
                 (λ url, default (ns_path ns) (py_or path None) +:+ url) <$> r.1.2))
             <$> ns_resources ns))%list.
Proof.
  intros Hnotin Hnopath Happ. unfold add_namespace. rewrite !decide_False by done.
  set (self1 := {| api_of := api_of self;
                   namespaces := (namespaces self ++ [ns_id (ns_self ns)])%list;
                   ns_paths := _; models := models self |}).
  destruct (register_ns_resources_returns self1 ns (api_of self1) (ns_resources ns))
    as (api1 & -> & _ & _ & _ & Hres & _).
  simpl. eexists _, _. split; [done |].
  cbn [api_of namespaces resources set_error_handlers].
  split; [done |]. split.
  - case_decide; [done |]. cbn [ns_apis]. apply elem_of_app. right. left.
  - rewrite (Hres Happ). f_equal. apply list_fmap_ext. intros i [[r urls] ep] _.
    cbn [fst snd]. f_equal. unfold ns_urls, get_ns_path. f_equal.
    unfold self1. cbn [ns_paths]. destruct path as [p|].
    + by rewrite lookup_insert_eq.
    + by rewrite Hnopath.
Qed.

Lemma add_namespace_again_witness :
  ∃ self',
    add_namespace todos_added todos_namespace (Some "/elsewhere")
    = Some (self', todos_namespace)
    ∧ namespaces self' = namespaces todos_added
    ∧ ns_paths self' = ns_paths todos_added
    ∧ (resources (api_of self')).*1
      = ((resources (api_of todos_added)).*1
         ++ ((λ r : Resource * list string * option string,
                (r.1.1, ns_urls todos_added todos_namespace r.1.2))
             <$> ns_resources todos_namespace))%list
    ∧ endpoints (api_of todos_added) ⊆ endpoints (api_of self')
    ∧ size (endpoints (api_of self'))
      = (size (endpoints (api_of todos_added)) + length (ns_resources todos_namespace))%nat.
Proof.
  apply (add_namespace_again todos_added todos_namespace (Some "/elsewhere")).
  - reflexivity.
  - vm_compute. left.
  - repeat constructor.
Defined.

Lemma add_namespace_first_time_witness :
  ∃ self' ns',
    add_namespace fresh_api_namespaces todos_namespace (Some "/api/todos")
    = Some (self', ns')
    ∧ namespaces self' = (namespaces fresh_api_namespaces ++ [3%nat])%list
    ∧ _uid (api_of fresh_api_namespaces) ∈ ns_apis ns'
    ∧ (resources (api_of self')).*1
      = ((resources (api_of fresh_api_namespaces)).*1
         ++ ((λ r : Resource * list string * option string,
                (r.1.1,
                 (λ url, default (ns_path todos_namespace)
                           (py_or (Some "/api/todos") None) +:+ url) <$> r.1.2))
             <$> ns_resources todos_namespace))%list.
Proof.
  apply (add_namespace_first_time fresh_api_namespaces todos_namespace
           (Some "/api/todos")).
  - intros Hin. inversion Hin.
  - reflexivity.
  - reflexivity.
Defined.

(** Adding the example namespace twice: the second round registers both
    resources again, under suffixed names, and the path of the first round
    stays. *)
Example add_namespace_scenario :
  endpoints (api_of todos_added) = {[ "todos_todo-list"; "todos_todo" ]}
  ∧ (resources (api_of todos_added)).*1
    = [({| resource_dash_name := "todo-list" |}, ["/api/todos/"]);
       ({| resource_dash_name := "todo" |}, ["/api/todos/<id>"])]
  ∧ (fst <$> add_namespace todos_added todos_namespace (Some "/elsewhere"))
    ≫= (λ self', Some (endpoints (api_of self'), ns_paths self'))
    = Some ({[ "todos_todo-list"; "todos_todo";
               "todos_todo-list_2"; "todos_todo_2" ]},
            {[ 3%nat := "/api/todos" ]}).
Proof. vm_compute. repeat split. Qed.

(** ** The documentation blueprint *)

Lemma _register_apidoc_idempotent app :
  _register_apidoc (_register_apidoc app) = _register_apidoc app.
Proof.
  unfold _register_apidoc. cbn [extensions app_blueprints default from_option id].
  rewrite !lookup_insert_eq. cbn [default from_option id].
  rewrite !lookup_insert_eq. cbn [default from_option id].
  by rewrite !insert_insert_eq.
Qed.

(** X22: the documentation blueprint is registered once per application,
    however many Apis are initialised on it: the first [_register_apidoc]
    registers it unless the application is already marked, every later call
    changes nothing. *)
Theorem _register_apidoc_once app n :
  Nat.iter (S n) _register_apidoc app = _register_apidoc app
  ∧ app_blueprints (_register_apidoc app)
    = (if default false
            (default ∅ (default ∅ (extensions app) !! "restplus")
             !! "apidoc_registered")
       then app_blueprints app
       else app_blueprints app ++ ["apidoc"])%list.
Proof.
  split; [| done].
  induction n as [|n IH]; [done |].
  change (Nat.iter (S (S n)) _register_apidoc app)
    with (_register_apidoc (Nat.iter (S n) _register_apidoc app)).
  rewrite IH. apply _register_apidoc_idempotent.
Qed.


(** ** The built-in handlers of the mask errors *)

(** A handler that returns a body with a message and a 400: the message is
    kept, [str(e)] does not replace it. *)
Lemma handle_error_message_400 self request app0 e f (message : string) :
  app request = Some app0 →
  error_handlers self !! exc_class e = Some f →
  f e = Ok (Ret2 {[ "message" := PStr message ]} 400) →
  exc_data e = None →
  handle_error self (Some request) e
  = make_response self request (PyDict {[ "message" := PStr message ]}) 400 ∅ None.
Proof.
  intros Happ Hh Hf Hdata.
  rewrite (handle_error_unfold _ _ _ _ Happ).
  unfold resolve_error. rewrite Hh, Hf, !bind_Ok. cbn [unpack].
  rewrite (finish_error_plain self request app0 e _ 400 ∅)
    by (try lia; left; lia).
  unfold error_data. rewrite Hdata. cbn [default from_option id].
  rewrite lookup_singleton_eq. cbn [default from_option id].
  rewrite insert_singleton_eq, remove_blacklisted_eq, delete_empty. done.
Qed.

(** X23: an Api handles the errors of the field mask from its construction
    on: a [ParseError] or [MaskError] without [data] attribute is answered
    with status 400, no headers of its own, and a body whose only entry is the
    message of the built-in handler, the error's text behind a fixed prefix. *)
Theorem handle_error_mask_errors uid_counter ns_ident mediatype catch_all challenge
    request app0 e :
  app request = Some app0 →
  exc_data e = None →
  exc_class e = "ParseError" ∨ exc_class e = "MaskError" →
  handle_error (Api__init__ uid_counter ns_ident mediatype catch_all challenge).1
    (Some request) e
  = make_response (Api__init__ uid_counter ns_ident mediatype catch_all challenge).1
      request
      (PyDict {[ "message" :=
                   PStr ((if decide (exc_class e = "ParseError")
                          then "Mask parse error: " else "Mask error: ")
                         +:+ exc_str e) ]})
      400 ∅ None.
Proof.
  intros Happ Hdata [Hcls|Hcls].
  - rewrite decide_True by done.
    apply (handle_error_message_400 _ _ app0 _ mask_parse_error_handler);
      [done | | done | done].
    rewrite Hcls. unfold Api__init__. cbn [fst error_handlers].
    apply lookup_insert_eq.
  - rewrite decide_False by (rewrite Hcls; discriminate).
    apply (handle_error_message_400 _ _ app0 _ mask_error_handler);
      [done | | done | done].
    rewrite Hcls. unfold Api__init__. cbn [fst error_handlers].
    rewrite lookup_insert_ne by discriminate. apply lookup_singleton_eq.
Qed.

Lemma handle_error_mask_errors_witness :
  handle_error (Api__init__ 0 0 (Some "application/json") false false).1
    (Some (todo_request [])) mask_parse_error
  = Ok {| status := 400;
          headers := {[ "Content-Type" := "application/json" ]};
          body := JsonBody (PyDict {[ "message" :=
                    PStr "Mask parse error: Missing opening bracket" ]}) |}.
Proof.
  rewrite (handle_error_mask_errors 0 0 (Some "application/json") false false
             (todo_request []) example_app mask_parse_error eq_refl eq_refl
             (or_introl eq_refl)).
  vm_compute. reflexivity.
Defined.


(** ** The ownership test on a dynamic path *)

Lemma isinstance_method_not_supported method url valid_methods :
  isinstance (method_not_supported method url valid_methods) "InvalidUsage" = true.
Proof. reflexivity. Qed.

(** X24: for a path without static route whose lookup ends in a 405, the
    ownership test retries the lookup with the first method of the last route
    the lookup went through. It answers only when some route matching the
    path lists that method, with whether the Api owns that route; otherwise
    the retry fails with a 405 of its own, which leaves the test as an
    exception (as does [StopIteration] when the last route lists no
    method). *)
Theorem _has_fr_route_dynamic_405 self request app0 last_route :
  app request = Some app0 →
  routes_static (router app0) !! path request = None →
  List.find (route_accepts (method request) (path request))
    (dynamic_candidates (router app0) (path request)) = None →
  existsb (λ r, pattern r (path request))
    (dynamic_candidates (router app0) (path request)) = true →
  last (dynamic_candidates (router app0) (path request)) = Some last_route →
  _has_fr_route self (Some request)
  = match methods last_route with
    | [] => Raise StopIteration
    | m :: _ =>
        match List.find (route_accepts m (path request))
                (dynamic_candidates (router app0) (path request)) with
        | Some route => Ok (owns_endpoint self (name route))
        | None =>
            Raise (method_not_supported m (path request)
                     (Some (methods last_route)))
        end
    end.
Proof.
  intros Happ Hstatic Hfind Hex Hlast.
  unfold _has_fr_route, _should_use_fr_error_handler. rewrite Happ.
  rewrite (_dummy_router_get_dynamic _ (method request) _ Hstatic), Hfind, Hex, Hlast.
  rewrite isinstance_method_not_supported.
  change (exc_valid_methods (method_not_supported _ _ (Some (methods last_route))))
    with (Some (methods last_route)).
  destruct (methods last_route) as [|m ms] eqn:Hms; [done |].
  rewrite bind_Ok.
  rewrite (_dummy_router_get_dynamic _ m _ Hstatic), Hex, Hlast, Hms.
  destruct (List.find (route_accepts m (path request)) _) as [route|]; [| done].
  rewrite !bind_Ok. by destruct (owns_endpoint self (name route)).
Qed.

Lemma _has_fr_route_dynamic_405_witness :
  _has_fr_route (todo_api (Some "application/json") false) (Some delete_item_request)
  = Raise (method_not_supported "POST" "/42" (Some ["POST"])).
Proof.
  apply (_has_fr_route_dynamic_405 (todo_api (Some "application/json") false)
           delete_item_request dynamic_app admin_route);
    vm_compute; reflexivity.
Defined.
